(** * highload_final: the ingestion-to-analysis pipeline of [main.go]

    A shallow embedding of the service: the rolling statistics computed by
    [worker], the push/trim/read protocol against the Redis window, the
    bounded admission channel behind [handleIngest], and [handleAnalyze].

    Go's [float64] is IEEE 754 binary64; it is modelled by Rocq's primitive
    [float], whose operations are the same correctly rounded binary64
    operations (round to nearest, ties to even).  Each Go operation is kept
    as one rounded operation, in the order of the source; a compiler that
    fuses [variance += d * d] into one multiply-add rounds once less, which
    changes none of the values computed in this file (their products
    [d * d] are exact or infinite).  Go's [int] and [int64] are modelled by
    [Z].

    Concurrency is modelled at the store: the worker is one sequential
    goroutine, and before each of its round trips the other clients of the
    store may have changed it arbitrarily. *)

From Stdlib Require Import ZArith List String Ascii Bool Lia.
From Stdlib Require Import Floats DecimalString.
Import ListNotations.

(** ** Data model (main.go, lines 18-44) *)

Record Metric := mkMetric {
  Timestamp : Z;
  CPU : float;
  RPS : float
}.

Record Analysis := mkAnalysis {
  Count : Z;
  WindowSize : Z;
  RollingAvg : float;
  StdDev : float;
  ZScore : float;
  IsAnomaly : bool;
  LastRPS : float;
  LastCPU : float;
  LastTs : Z;
  ThresholdZ : float;
  ComputedAt : Z
}.

Definition windowSize : Z := 50.
Definition zThreshold : float := 2.0%float.

Definition redisWindowKey : string := "rps_window".
Definition redisLastKey : string := "last_analysis".

(** ** float64 helpers *)

Module F64.

(** [float64(n)] for a Go [int] [n] with [0 <= n < 2^63] (every [len]). *)
Definition of_int (n : Z) : float := of_uint63 (Uint63.of_Z n).

(** Neither NaN nor an infinity. *)
Definition finite (x : float) : bool := negb (is_nan x) && negb (is_infinity x).

End F64.

(** ** The computation of one worker iteration (main.go, lines 111-154) *)

Section Statistics.

(** [strconv.ParseFloat(v, 64)]: [Some f] when the error is [nil]. *)
Variable ParseFloat : string -> option float.

Local Open Scope float_scope.

(** Lines 111-120: the loop over the window snapshot.  An entry that does
    not parse takes the [continue]; the others are appended to [nums] and
    added to [sum], in the order of the snapshot. *)
Definition parseStep (acc : list float * float) (v : string)
  : list float * float :=
  let '(nums, sum) := acc in
  match ParseFloat v with
  | None => (nums, sum)
  | Some f => (nums ++ [f], sum + f)
  end.

Definition parseValues (values : list string) : list float * float :=
  fold_left parseStep values ([], 0).

(** [len(nums)] as a Go [int]. *)
Definition len {A : Type} (l : list A) : Z := Z.of_nat (List.length l).

(** Lines 127-131: the accumulation [variance += d * d]. *)
Definition varianceStep (mean : float) (variance x : float) : float :=
  let d := x - mean in
  variance + d * d.

(** Lines 122-134: [mean] and [stddev] from [nums] and [sum]. *)
Definition meanStddev (nums : list float) (sum : float) : float * float :=
  let count := len nums in
  if (0 <? count)%Z then
    let mean := sum / F64.of_int count in
    let variance := fold_left (varianceStep mean) nums 0 in
    let variance := variance / F64.of_int count in
    (mean, PrimFloat.sqrt variance)
  else (0, 0).

(** Lines 136-139. *)
Definition zOf (count : Z) (mean stddev rps : float) : float :=
  if (1 <? count)%Z && (0 <? stddev) then (rps - mean) / stddev else 0.

(** Line 140: [math.Abs(z) > zThreshold]. *)
Definition isAnomalyOf (z : float) : bool := zThreshold <? abs z.

(** Lines 122-154: the [Analysis] built from what the parsing loop left in
    [nums] and [sum], the sample [m] being processed and the clock. *)
Definition analyse (nums : list float) (sum : float) (m : Metric) (now : Z)
  : Analysis :=
  let count := len nums in
  let '(mean, stddev) := meanStddev nums sum in
  let z := zOf count mean stddev (RPS m) in
  {| Count := count;
     WindowSize := windowSize;
     RollingAvg := mean;
     StdDev := stddev;
     ZScore := z;
     IsAnomaly := isAnomalyOf z;
     LastRPS := RPS m;
     LastCPU := CPU m;
     LastTs := Timestamp m;
     ThresholdZ := zThreshold;
     ComputedAt := now |}.

(** Lines 111-154 for a window snapshot [values]. *)
Definition analyseWindow (values : list string) (m : Metric) (now : Z)
  : Analysis :=
  let '(nums, sum) := parseValues values in
  analyse nums sum m now.

End Statistics.

(** The Statistics Engine on an already parsed window: the loop of lines
    113-120 run on entries that all parse leaves [sum] equal to the
    left-to-right sum of [nums] (lemma [parseValues_spec] below). *)
Definition sumOf (nums : list float) : float :=
  fold_left PrimFloat.add nums 0%float.

Definition engine (nums : list float) (m : Metric) (now : Z) : Analysis :=
  analyse nums (sumOf nums) m now.

(** ** The library functions the service calls, on decimal notation

    [strconv.ParseFloat], the [float64] argument encoding of the Redis client
    ([strconv.AppendFloat(b, v, 'f', -1, 64)]) and [json.Marshal] belong to
    Go's libraries.  The service is defined and verified below for any such
    functions (they are section variables).  The definitions of this module
    are what the model runs with on concrete inputs: conversions are
    correctly rounded, printing gives the shortest digits that read back as
    the same [float64].  [ParseFloat] covers decimal notation and the names
    of the special values; hexadecimal mantissas and underscores between
    digits are left out (read as errors). *)

Module Strconv.

Local Open Scope Z_scope.

Definition isDigit (c : ascii) : bool :=
  let n := Z.of_nat (nat_of_ascii c) in (48 <=? n) && (n <=? 57).

Definition digitVal (c : ascii) : Z := Z.of_nat (nat_of_ascii c) - 48.

(** A run of digits: the number read after [acc], how many digits, and
    the rest of the string. *)
Fixpoint readDigits (s : string) (acc n : Z) : Z * Z * string :=
  match s with
  | String c s' =>
      if isDigit c then readDigits s' (10 * acc + digitVal c) (n + 1)
      else (acc, n, s)
  | EmptyString => (acc, n, s)
  end.

Definition readSign (s : string) : bool * string :=
  match s with
  | String "-"%char s' => (true, s')
  | String "+"%char s' => (false, s')
  | _ => (false, s)
  end.

Definition lower (c : ascii) : ascii :=
  let n := nat_of_ascii c in
  if ((65 <=? n) && (n <=? 90))%nat then ascii_of_nat (n + 32) else c.

Fixpoint lowerString (s : string) : string :=
  match s with
  | EmptyString => EmptyString
  | String c s' => String (lower c) (lowerString s')
  end.

(** [sign digits . digits e sign digits] as sign, integer mantissa and
    power of ten. *)
Definition readDecimal (s : string) : option (bool * Z * Z) :=
  let '(neg, s) := readSign s in
  let '(ip, ni, s) := readDigits s 0 0 in
  let '(mant, nf, s) :=
    match s with
    | String "."%char s' => readDigits s' ip 0
    | _ => (ip, 0, s)
    end in
  if ni + nf =? 0 then None
  else
    match s with
    | EmptyString => Some (neg, mant, - nf)
    | String c s' =>
        if Ascii.eqb (lower c) "e"%char then
          let '(eneg, s') := readSign s' in
          let '(ex, ne, rest) := readDigits s' 0 0 in
          match rest with
          | EmptyString =>
              if ne =? 0 then None
              else Some (neg, mant, (if eneg then - ex else ex) - nf)
          | _ => None
          end
        else None
    end.

(** The binary64 value nearest to [mant * 10 ^ exp10] (ties to even). *)
Definition decToSF (neg : bool) (mant exp10 : Z) : spec_float :=
  match mant with
  | Z0 => S754_zero neg
  | Zpos p =>
      if 0 <=? exp10
      then binary_round prec emax neg (Z.to_pos (mant * 10 ^ exp10)) 0
      else
        let '(q, e, l) :=
          SFdiv_core_binary prec emax mant 0 (10 ^ (- exp10)) 0 in
        binary_round_aux prec emax neg q e l
  | Zneg _ => S754_nan
  end.

Definition readSpecial (s : string) : option float :=
  let l := lowerString s in
  if String.eqb l "nan" then Some nan
  else if String.eqb l "inf" || String.eqb l "+inf"
          || String.eqb l "infinity" || String.eqb l "+infinity"
  then Some infinity
  else if String.eqb l "-inf" || String.eqb l "-infinity"
  then Some neg_infinity
  else None.

(** [strconv.ParseFloat(s, 64)] with a [nil] error.  A value that rounds
    beyond the largest finite [float64] is a range error. *)
Definition ParseFloat (s : string) : option float :=
  match readSpecial s with
  | Some f => Some f
  | None =>
      match readDecimal s with
      | Some (neg, mant, exp10) =>
          match decToSF neg mant exp10 with
          | S754_infinity _ | S754_nan => None
          | sf => Some (SF2Prim sf)
          end
      | None => None
      end
  end.

(** *** Printing *)

Definition digitsOf (n : Z) : string := NilZero.string_of_int (Z.to_int n).

Definition ndigits (n : Z) : Z := Z.of_nat (String.length (digitsOf n)).

(** The [p] with [10^(p-1) <= num/den < 10^p], for [num, den > 0]. *)
Definition decimalExponent (num den : Z) : Z :=
  if den <=? num then ndigits (num / den)
  else 1 - ndigits ((den + num - 1) / num - 1).

(** Among the decimals of [nd] digits, the two around [x = num/den]; the
    first of [nd = 1, 2, ...] for which one of them reads back as [x]
    gives the digits, the nearer one if both do. *)
Fixpoint shortest (fuel : nat) (x : float) (num den p nd : Z) : Z * Z :=
  let k := p - nd in
  let ynum := if k <? 0 then num * 10 ^ (- k) else num in
  let yden := if k <? 0 then den else den * 10 ^ k in
  let lo := ynum / yden in
  let rem := ynum mod yden in
  let hi := lo + 1 in
  let back d := PrimFloat.eqb (SF2Prim (decToSF false d k)) x in
  let nearerHi := (yden <? 2 * rem) || ((yden =? 2 * rem) && Z.odd lo) in
  match fuel with
  | O => (if nearerHi then hi else lo, k)
  | S fuel' =>
      if (rem =? 0) && back lo then (lo, k)
      else if back lo && back hi then (if nearerHi then hi else lo, k)
      else if back lo then (lo, k)
      else if back hi then (hi, k)
      else shortest fuel' x num den p (nd + 1)
  end.

Fixpoint stripZeros (fuel : nat) (d k : Z) : Z * Z :=
  match fuel with
  | O => (d, k)
  | S fuel' =>
      if (d mod 10 =? 0) && negb (d =? 0)
      then stripZeros fuel' (d / 10) (k + 1)
      else (d, k)
  end.

(** The shortest digits of a positive finite [x = m * 2^e] and the
    position [dp] of the decimal point: [x] is [0.digits * 10^dp]. *)
Definition shortestDigits (x : float) (m : positive) (e : Z) : string * Z :=
  let num := if e <? 0 then Zpos m else Zpos m * 2 ^ e in
  let den := if e <? 0 then 2 ^ (- e) else 1 in
  let p := decimalExponent num den in
  let '(d, k) := shortest 16 x num den p 1 in
  let '(d, k) := stripZeros 400 d k in
  (digitsOf d, ndigits d + k).

Fixpoint zeros (n : nat) : string :=
  match n with
  | O => EmptyString
  | S n' => String "0"%char (zeros n')
  end.

Definition take (n : Z) (s : string) : string :=
  substring 0 (Z.to_nat n) s.

Definition drop (n : Z) (s : string) : string :=
  substring (Z.to_nat n) (String.length s - Z.to_nat n) s.

Definition slen (s : string) : Z := Z.of_nat (String.length s).

(** The layout of format ['f'] with precision [-1]. *)
Definition fmtF (ds : string) (dp : Z) : string :=
  let int :=
    if 0 <? dp
    then (take dp ds ++ zeros (Z.to_nat (dp - slen ds)))%string
    else "0"%string in
  if dp <? slen ds
  then (int ++ "." ++ zeros (Z.to_nat (- dp)) ++ drop (Z.max dp 0) ds)%string
  else int.

(** The layout of format ['e'] with precision [-1]: at least two digits
    in the exponent. *)
Definition fmtE (ds : string) (dp : Z) : string :=
  let ex := dp - 1 in
  let mant :=
    if 1 <? slen ds then (take 1 ds ++ "." ++ drop 1 ds)%string
    else ds in
  let exs := digitsOf (Z.abs ex) in
  let sign := if ex <? 0 then "-"%string else "+"%string in
  let pad := if Z.abs ex <? 10 then "0"%string else ""%string in
  (mant ++ "e" ++ sign ++ pad ++ exs)%string.

Definition formatWith (layout : string -> Z -> string) (x : float) : string :=
  match Prim2SF x with
  | S754_nan => "NaN"%string
  | S754_infinity false => "+Inf"%string
  | S754_infinity true => "-Inf"%string
  | S754_zero false => layout "0"%string 1
  | S754_zero true => ("-" ++ layout "0"%string 1)%string
  | S754_finite s m e =>
      let '(ds, dp) := shortestDigits (abs x) m e in
      ((if s then "-" else "") ++ layout ds dp)%string
  end.

(** [strconv.FormatFloat(x, 'f', -1, 64)]. *)
Definition FormatFloat (x : float) : string := formatWith fmtF x.

End Strconv.

Module Json.

Local Open Scope string_scope.

Definition quote : string := String (ascii_of_nat 34) EmptyString.

(** The exponent written by format ['e'] loses its leading zero
    ([e-09] becomes [e-9]). *)
Definition cleanExponent (b : string) : string :=
  let n := String.length b in
  match get (n - 4) b, get (n - 3) b, get (n - 2) b with
  | Some "e"%char, Some sg, Some "0"%char =>
      if ((4 <=? n)%nat && (Ascii.eqb sg "-" || Ascii.eqb sg "+"))
      then substring 0 (n - 2) b ++ substring (n - 1) 1 b
      else b
  | _, _, _ => b
  end.

(** The [float64] constant [1e-6]. *)
Definition oneMillionth : float := 0x1.0c6f7a0b5ed8dp-20%float.

(** A [float64] field: NaN and the infinities are unsupported values;
    format ['e'] below [1e-6] and from [1e21] on, format ['f'] otherwise. *)
Definition encodeFloat (f : float) : option string :=
  if is_nan f || is_infinity f then None
  else
    let a := abs f in
    if negb (PrimFloat.eqb a 0)
       && (PrimFloat.ltb a oneMillionth || PrimFloat.leb 1e21 a)
    then Some (cleanExponent (Strconv.formatWith Strconv.fmtE f))
    else Some (Strconv.formatWith Strconv.fmtF f).

Definition encodeInt (n : Z) : string := Strconv.digitsOf n.

Definition encodeBool (b : bool) : string := if b then "true" else "false".

Definition field (name value : string) : string :=
  quote ++ name ++ quote ++ ":" ++ value.

(** [json.Marshal] of an [Analysis], fields in the order of the struct
    under the names of their tags. *)
Definition Marshal (a : Analysis) : option string :=
  match encodeFloat (RollingAvg a), encodeFloat (StdDev a),
        encodeFloat (ZScore a), encodeFloat (LastRPS a),
        encodeFloat (LastCPU a), encodeFloat (ThresholdZ a) with
  | Some avg, Some sd, Some z, Some rps, Some cpu, Some th =>
      Some ("{" ++ field "count" (encodeInt (Count a))
                ++ "," ++ field "windowSize" (encodeInt (WindowSize a))
                ++ "," ++ field "rollingAvg" avg
                ++ "," ++ field "stdDev" sd
                ++ "," ++ field "zScore" z
                ++ "," ++ field "isAnomaly" (encodeBool (IsAnomaly a))
                ++ "," ++ field "lastRps" rps
                ++ "," ++ field "lastCpu" cpu
                ++ "," ++ field "lastTimestamp" (encodeInt (LastTs a))
                ++ "," ++ field "thresholdZ" th
                ++ "," ++ field "computedAt" (encodeInt (ComputedAt a))
                ++ "}")
  | _, _, _, _, _, _ => None
  end.

End Json.

(** ** The Redis store, as the service uses it

    Two keys are touched: the list under [redisWindowKey] and the string
    under [redisLastKey].  A missing list key reads as the empty list. *)

Record Redis := mkRedis {
  rps_window : list string;
  last_analysis : option string
}.

(** Redis' index arithmetic for LRANGE and LTRIM: both bounds are inclusive,
    a negative bound counts from the end, [stop] is clamped to the last
    element, and an empty range gives the empty list. *)
Definition lrange (l : list string) (start stop : Z) : list string :=
  let llen := len l in
  let start := if (start <? 0)%Z then (llen + start)%Z else start in
  let stop := if (stop <? 0)%Z then (llen + stop)%Z else stop in
  let start := if (start <? 0)%Z then 0%Z else start in
  if ((stop <? start) || (llen <=? start))%Z then []
  else
    let stop := if (llen <=? stop)%Z then (llen - 1)%Z else stop in
    firstn (Z.to_nat (stop - start + 1)) (skipn (Z.to_nat start) l).

Definition LPUSH (v : string) (r : Redis) : unit * Redis :=
  (tt, {| rps_window := v :: rps_window r; last_analysis := last_analysis r |}).

Definition LTRIM (start stop : Z) (r : Redis) : unit * Redis :=
  (tt, {| rps_window := lrange (rps_window r) start stop;
          last_analysis := last_analysis r |}).

Definition LRANGE (start stop : Z) (r : Redis) : list string * Redis :=
  (lrange (rps_window r) start stop, r).

(** SET with expiration 0: the value stays until it is overwritten. *)
Definition SET (v : string) (r : Redis) : unit * Redis :=
  (tt, {| rps_window := rps_window r; last_analysis := Some v |}).

Definition GET (r : Redis) : option string * Redis := (last_analysis r, r).

(** Go [error] values the service can see: [redis.Nil] and any other. *)
Inductive error :=
| redis_Nil
| errorString (msg : string).

Definition Error (e : error) : string :=
  match e with
  | redis_Nil => "redis: nil"
  | errorString msg => msg
  end.

(** ** The world around one goroutine

    Every call to the store is one round trip.  Before it is served, the
    other clients of the store (the other workers, other replicas) may have
    run any commands: [others].  The round trip itself may fail: [fault]
    carries the error, and the command then has no effect of its own. *)
Record Turn := mkTurn {
  others : Redis -> Redis;
  fault : option string
}.

Definition quiet : Turn := {| others := fun r => r; fault := None |}.

(** The buffered channel [metricsCh]: capacity and buffered samples, oldest
    first. *)
Record Chan := mkChan {
  chan_cap : Z;
  chan_buf : list Metric
}.

(** The Prometheus collectors of lines 46-68: counters and the histogram by
    their number of increments and observations, gauges by their value. *)
Record Registry := mkRegistry {
  ingestTotal : Z;
  ingestLatency : Z;
  currentRollingAvg : float;
  anomalyTotal : Z;
  anomalyRate : float
}.

Record World := mkWorld {
  metricsCh : Chan;
  rdb : Redis;
  network : list Turn;
  unixNow : Z;
  prom : Registry;
  logged : list string
}.

Definition with_rdb (r : Redis) (net : list Turn) (w : World) : World :=
  {| metricsCh := metricsCh w; rdb := r; network := net;
     unixNow := unixNow w; prom := prom w; logged := logged w |}.

Definition with_prom (p : Registry) (w : World) : World :=
  {| metricsCh := metricsCh w; rdb := rdb w; network := network w;
     unixNow := unixNow w; prom := p; logged := logged w |}.

Definition with_logged (l : list string) (w : World) : World :=
  {| metricsCh := metricsCh w; rdb := rdb w; network := network w;
     unixNow := unixNow w; prom := prom w; logged := l |}.

Definition with_metricsCh (c : Chan) (w : World) : World :=
  {| metricsCh := c; rdb := rdb w; network := network w;
     unixNow := unixNow w; prom := prom w; logged := logged w |}.

(** Lines 80-86: a channel of capacity 10000, nothing buffered. *)
Definition NewService (r : Redis) (net : list Turn) (now : Z) : World :=
  {| metricsCh := {| chan_cap := 10000; chan_buf := [] |};
     rdb := r;
     network := net;
     unixNow := now;
     prom := {| ingestTotal := 0; ingestLatency := 0;
                currentRollingAvg := 0%float;
                anomalyTotal := 0; anomalyRate := 0%float |};
     logged := [] |}.

(** ** A monad for one loop iteration: state, and [continue] as [None] *)

Definition M (A : Type) : Type := World -> option A * World.

Definition ret {A : Type} (a : A) : M A := fun w => (Some a, w).

Definition bind {A B : Type} (c : M A) (k : A -> M B) : M B :=
  fun w =>
    match c w with
    | (Some a, w') => k a w'
    | (None, w') => (None, w')
    end.

Definition continue {A : Type} : M A := fun w => (None, w).

Declare Scope go_scope.
Delimit Scope go_scope with go.
Notation "x <- c ;; k" := (bind c (fun x => k))
  (at level 61, c at next level, right associativity) : go_scope.
Notation "c ;; k" := (bind c (fun _ => k))
  (at level 61, right associativity) : go_scope.

(** One round trip to the store, as a state transformer.  With nothing
    left in [network], the store is quiet from then on. *)
Definition nextTurn (w : World) : Turn := hd quiet (network w).

(** The world when the round trip fails, and when it is served. *)
Definition failed (w : World) : World :=
  with_rdb (others (nextTurn w) (rdb w)) (tl (network w)) w.

Definition served {R : Type} (cmd : Redis -> R * Redis) (w : World) : World :=
  with_rdb (snd (cmd (others (nextTurn w) (rdb w)))) (tl (network w)) w.

Definition roundTrip {R : Type} (cmd : Redis -> R * Redis)
  : World -> (R + error) * World :=
  fun w =>
    match fault (nextTurn w) with
    | Some msg => (inr (errorString msg), failed w)
    | None => (inl (fst (cmd (others (nextTurn w) (rdb w)))), served cmd w)
    end.

Definition lift {A : Type} (c : World -> A * World) : M A :=
  fun w => let '(a, w') := c w in (Some a, w').

Definition logPrintf (line : string) : M unit :=
  fun w => (Some tt, with_logged (logged w ++ [line])%list w).

Definition updateProm (f : Registry -> Registry) : M unit :=
  fun w => (Some tt, with_prom (f (prom w)) w).

Definition timeNowUnix : M Z := fun w => (Some (unixNow w), w).

(** Time passes: from here on the clock reads [t].  The service never sets
    the clock; it moves between the operations of the handlers and of the
    workers, so that the clock of line 186 and the clock of line 153 are
    read at different moments. *)
Definition elapse (t : Z) (w : World) : World :=
  {| metricsCh := metricsCh w; rdb := rdb w; network := network w;
     unixNow := t; prom := prom w; logged := logged w |}.

(** [%d] of a Go [int]. *)
Definition itoa (n : Z) : string := NilZero.string_of_int (Z.to_int n).

Local Open Scope string_scope.

(** The double quote, for string literals that contain it. *)
Definition dq : string := String (ascii_of_nat 34) EmptyString.
Definition nl : string := String (ascii_of_nat 10) EmptyString.

(** ** HTTP requests and responses, as the handlers use them *)

(** The request body as [json.NewDecoder(r.Body).Decode(&m)] reads it for a
    [*Metric]: decoding fails (a syntax error, or a value of the wrong type
    for a field), or it succeeds and assigns the fields whose keys are
    present.  [{}] is [JSONFields None None None]. *)
Inductive JSONBody :=
| BadJSON (err : string)
| JSONFields (timestamp : option Z) (cpu rps : option float).

Record Request := mkRequest {
  Method : string;
  Body : JSONBody
}.

Record Response := mkResponse {
  StatusCode : Z;
  Header : list (string * string);
  Written : string
}.

Definition StatusOK : Z := 200.
Definition StatusAccepted : Z := 202.
Definition StatusNoContent : Z := 204.
Definition StatusBadRequest : Z := 400.
Definition StatusMethodNotAllowed : Z := 405.
Definition StatusServiceUnavailable : Z := 503.

(** [http.Error]: a plain-text reply, the message followed by a newline. *)
Definition httpError (msg : string) (code : Z) : Response :=
  {| StatusCode := code;
     Header := [("Content-Type", "text/plain; charset=utf-8");
                ("X-Content-Type-Options", "nosniff")];
     Written := msg ++ nl |}.

(** [Decode(&m)]: the fields present in the body overwrite those of [m]. *)
Definition Decode (body : JSONBody) (m : Metric) : Metric + string :=
  match body with
  | BadJSON err => inr err
  | JSONFields ts cpu rps =>
      inl {| Timestamp := match ts with Some t => t | None => Timestamp m end;
             CPU := match cpu with Some c => c | None => CPU m end;
             RPS := match rps with Some x => x | None => RPS m end |}
  end.

(** The zero value of [Metric] ([var m Metric]). *)
Definition zeroMetric : Metric :=
  {| Timestamp := 0; CPU := 0%float; RPS := 0%float |}.

(** A send in a [select] with a [default] case: it goes through exactly when
    the buffer has room. *)
Definition trySend (ch : Chan) (m : Metric) : option Chan :=
  if (len (chan_buf ch) <? chan_cap ch)%Z
  then Some {| chan_cap := chan_cap ch; chan_buf := (chan_buf ch ++ [m])%list |}
  else None.

Definition incIngestTotal (p : Registry) : Registry :=
  {| ingestTotal := ingestTotal p + 1; ingestLatency := ingestLatency p;
     currentRollingAvg := currentRollingAvg p;
     anomalyTotal := anomalyTotal p; anomalyRate := anomalyRate p |}.

Definition observeIngestLatency (p : Registry) : Registry :=
  {| ingestTotal := ingestTotal p; ingestLatency := ingestLatency p + 1;
     currentRollingAvg := currentRollingAvg p;
     anomalyTotal := anomalyTotal p; anomalyRate := anomalyRate p |}.

Definition setCurrentRollingAvg (x : float) (p : Registry) : Registry :=
  {| ingestTotal := ingestTotal p; ingestLatency := ingestLatency p;
     currentRollingAvg := x;
     anomalyTotal := anomalyTotal p; anomalyRate := anomalyRate p |}.

Definition incAnomalyTotal (p : Registry) : Registry :=
  {| ingestTotal := ingestTotal p; ingestLatency := ingestLatency p;
     currentRollingAvg := currentRollingAvg p;
     anomalyTotal := anomalyTotal p + 1; anomalyRate := anomalyRate p |}.

Definition setAnomalyRate (x : float) (p : Registry) : Registry :=
  {| ingestTotal := ingestTotal p; ingestLatency := ingestLatency p;
     currentRollingAvg := currentRollingAvg p;
     anomalyTotal := anomalyTotal p; anomalyRate := x |}.

Definition acceptedBody : string :=
  "{" ++ dq ++ "status" ++ dq ++ ":" ++ dq ++ "accepted" ++ dq ++ "}".

(** Lines 185-187: a zero timestamp becomes the current time. *)
Definition stamp (now : Z) (m : Metric) : Metric :=
  if (Timestamp m =? 0)%Z
  then {| Timestamp := now; CPU := CPU m; RPS := RPS m |}
  else m.

(** Lines 175-197, before the deferred latency observation. *)
Definition handleIngestBody (r : Request) (w : World) : Response * World :=
  if negb (String.eqb (Method r) "POST") then
    (httpError "POST only" StatusMethodNotAllowed, w)
  else
    match Decode (Body r) zeroMetric with
    | inr err => (httpError ("bad json: " ++ err) StatusBadRequest, w)
    | inl m =>
        let m := stamp (unixNow w) m in
        match trySend (metricsCh w) m with
        | Some ch =>
            ({| StatusCode := StatusAccepted;
                Header := [("Content-Type", "application/json")];
                Written := acceptedBody |},
             with_prom (incIngestTotal (prom w)) (with_metricsCh ch w))
        | None =>
            (httpError "overloaded" StatusServiceUnavailable, w)
        end
    end.

(** Lines 171-198. *)
Definition handleIngest (r : Request) (w : World) : Response * World :=
  let '(resp, w') := handleIngestBody r w in
  (resp, with_prom (observeIngestLatency (prom w')) w').

(** Lines 200-218.  A missing key is reported by the client as the error
    [redis.Nil]. *)
Definition Get (w : World) : (string + error) * World :=
  match roundTrip GET w with
  | (inl (Some val), w') => (inl val, w')
  | (inl None, w') => (inr redis_Nil, w')
  | (inr e, w') => (inr e, w')
  end.

Definition handleAnalyze (r : Request) (w : World) : Response * World :=
  if negb (String.eqb (Method r) "GET") then
    (httpError "GET only" StatusMethodNotAllowed, w)
  else
    match Get w with
    | (inr redis_Nil, w') =>
        ({| StatusCode := StatusNoContent; Header := []; Written := "" |}, w')
    | (inr e, w') =>
        (httpError ("redis error: " ++ Error e) StatusServiceUnavailable, w')
    | (inl val, w') =>
        ({| StatusCode := StatusOK;
            Header := [("Content-Type", "application/json")];
            Written := val |}, w')
    end.

(** ** The worker (main.go, lines 94-169) *)

Section Worker.

(** [strconv.ParseFloat(v, 64)]: [Some f] when the error is [nil]. *)
Variable ParseFloat : string -> option float.
(** How the Redis client writes a [float64] argument. *)
Variable FormatFloat : float -> string.
(** [json.Marshal]: [Some b] when the error is [nil]. *)
Variable Marshal : Analysis -> option string.

Local Open Scope go_scope.

Definition workerLog (id : Z) (what : string) (e : error) : string :=
  "[worker " ++ itoa id ++ "] redis " ++ what ++ " error: " ++ Error e.

(** [if err != nil { log.Printf(...); continue }] *)
Definition orContinue {R : Type} (id : Z) (what : string) (res : R + error)
  : M R :=
  match res with
  | inl r => ret r
  | inr e => logPrintf (workerLog id what e) ;; continue
  end.

(** Lines 96-109: push, trim, read. *)
Definition readWindow (id : Z) (m : Metric) : M (list string) :=
  pushed <- lift (roundTrip (LPUSH (FormatFloat (RPS m)))) ;;
  orContinue id "LPUSH" pushed ;;
  trimmed <- lift (roundTrip (LTRIM 0 (windowSize - 1))) ;;
  orContinue id "LTRIM" trimmed ;;
  values <- lift (roundTrip (LRANGE 0 (windowSize - 1))) ;;
  orContinue id "LRANGE" values.

(** Lines 156-159: the error of [json.Marshal] is dropped, which leaves
    [b] nil; a failed SET is logged and nothing else. *)
Definition persist (id : Z) (anal : Analysis) : M unit :=
  let b := match Marshal anal with Some b => b | None => "" end in
  stored <- lift (roundTrip (SET b)) ;;
  match stored with
  | inl _ => ret tt
  | inr e => logPrintf (workerLog id "SET last_analysis" e)
  end.

(** Lines 161-167. *)
Definition observe (mean : float) (isAnomaly : bool) : M unit :=
  updateProm (setCurrentRollingAvg mean) ;;
  if isAnomaly
  then updateProm incAnomalyTotal ;; updateProm (setAnomalyRate 1)
  else updateProm (setAnomalyRate 0).

(** The body of the loop, lines 96-167, for the sample [m]. *)
Definition iteration (id : Z) (m : Metric) : M unit :=
  values <- readWindow id m ;;
  now <- timeNowUnix ;;
  let anal := analyseWindow ParseFloat values m now in
  persist id anal ;;
  observe (RollingAvg anal) (IsAnomaly anal).

(** [m := <-s.metricsCh]: the oldest buffered sample, if any. *)
Definition recv (w : World) : option (Metric * World) :=
  match chan_buf (metricsCh w) with
  | [] => None
  | m :: rest =>
      Some (m, with_metricsCh {| chan_cap := chan_cap (metricsCh w);
                                 chan_buf := rest |} w)
  end.

(** [for m := range s.metricsCh]: at most [n] iterations; on an empty
    channel the worker blocks, and the run stops there. *)
Fixpoint worker (id : Z) (n : nat) (w : World) : World :=
  match n with
  | O => w
  | S n' =>
      match recv w with
      | None => w
      | Some (m, w') => worker id n' (snd (iteration id m w'))
      end
  end.

(** *** Names for the statements about one iteration

    The worlds after each round trip that is served, the window snapshot
    read in the third, the [Analysis] computed from it, the bytes handed
    to SET, and the effect of lines 161-167 on the collectors. *)

Definition afterPush (m : Metric) (w : World) : World :=
  served (LPUSH (FormatFloat (RPS m))) w.

Definition afterTrim (m : Metric) (w : World) : World :=
  served (LTRIM 0 (windowSize - 1)) (afterPush m w).

Definition afterRead (m : Metric) (w : World) : World :=
  served (LRANGE 0 (windowSize - 1)) (afterTrim m w).

Definition snapshot (m : Metric) (w : World) : list string :=
  lrange (rps_window (rdb (afterRead m w))) 0 (windowSize - 1).

Definition analysisOf (m : Metric) (w : World) : Analysis :=
  analyseWindow ParseFloat (snapshot m w) m (unixNow w).

Definition jsonBytes (a : Analysis) : string :=
  match Marshal a with Some b => b | None => "" end.

Definition gauges (a : Analysis) (p : Registry) : Registry :=
  let p := setCurrentRollingAvg (RollingAvg a) p in
  if IsAnomaly a then setAnomalyRate 1 (incAnomalyTotal p)
  else setAnomalyRate 0 p.

Definition say (line : string) (w : World) : World :=
  with_logged (logged w ++ [line])%list w.

(** Which entries of a snapshot parse, and what they parse to. *)
Definition parses (v : string) : bool :=
  match ParseFloat v with Some _ => true | None => false end.

Fixpoint parsed (values : list string) : list float :=
  match values with
  | [] => []
  | v :: rest =>
      match ParseFloat v with
      | Some f => f :: parsed rest
      | None => parsed rest
      end
  end.

End Worker.

(** ** The statistics in the words of the specification

    The arithmetic mean, and the population standard deviation: the sum of
    the squared deviations from the mean divided by the number of samples.
    [sampleStdDev] divides by one less, for comparison.  All sums run from
    left to right in [float64]. *)

Definition arithmeticMean (xs : list float) : float :=
  (sumOf xs / F64.of_int (len xs))%float.

Definition squaredDeviations (xs : list float) : list float :=
  let mu := arithmeticMean xs in
  map (fun x => ((x - mu) * (x - mu))%float) xs.

Definition populationStdDev (xs : list float) : float :=
  PrimFloat.sqrt (sumOf (squaredDeviations xs) / F64.of_int (len xs))%float.

Definition sampleStdDev (xs : list float) : float :=
  PrimFloat.sqrt (sumOf (squaredDeviations xs) / F64.of_int (len xs - 1))%float.

(** ** Concrete worlds *)

Module Example.

Definition now : Z := 1766925730.

Definition emptyStore : Redis :=
  {| rps_window := []; last_analysis := None |}.

(** The service as [main] starts it, with a quiet store. *)
Definition fresh : World := NewService emptyStore [] now.

Definition breaks (msg : string) : Turn :=
  {| others := fun r => r; fault := Some msg |}.

(** POST /ingest with a body that gives [cpu] and [rps] and no timestamp;
    [post 12 120] is the request of the README. *)
Definition post (cpu rps : float) : Request :=
  {| Method := "POST"; Body := JSONFields None (Some cpu) (Some rps) |}.

(** GET /analyze; the body is empty. *)
Definition get : Request := {| Method := "GET"; Body := BadJSON "EOF" |}.

(** The sample of the README as the handler sends it to the channel. *)
Definition sample : Metric := {| Timestamp := now; CPU := 12; RPS := 120 |}.

Definition iteration := iteration Strconv.ParseFloat Strconv.FormatFloat Json.Marshal.
Definition worker := worker Strconv.ParseFloat Strconv.FormatFloat Json.Marshal.

(** The world with [sample] taken from the channel and the given turns
    ahead. *)
Definition facing (turns : list Turn) : World := NewService emptyStore turns now.

(** The first three round trips are served and the fourth, the SET, fails
    with [EOF]; and the same for each of the earlier ones. *)
Definition setFails : World :=
  facing [quiet; quiet; quiet; breaks "EOF"].
Definition pushFails : World := facing [breaks "EOF"].
Definition trimFails : World := facing [quiet; breaks "EOF"].
Definition readFails : World := facing [quiet; quiet; breaks "EOF"].


(** The [float64] nearest to [1e308]. *)
Definition huge : float := 0x1.1ccf385ebc8ap+1023%float.

(** The [float64] nearest to [0.1]. *)
Definition tenth : float := 0x1.999999999999ap-4%float.

Definition triggering (rps : float) : Metric :=
  {| Timestamp := now; CPU := 0; RPS := rps |}.

(** One POST /ingest with the given RPS, then the worker until it blocks;
    and the fresh service after a sequence of such requests. *)
Definition feed (w : World) (rps : float) : World :=
  worker 0 1 (snd (handleIngest (post 0 rps) w)).

Definition after (rpss : list float) : World := fold_left feed rpss fresh.

End Example.

(** ** Runs of the service: requests in sequence, and the worker between them *)

(** The replies to a sequence of requests to /ingest, and the world after
    the last. *)
Fixpoint ingestAll (rs : list Request) (w : World) : list Response * World :=
  match rs with
  | [] => ([], w)
  | r :: rest =>
      let '(resp, w1) := handleIngest r w in
      let '(resps, w2) := ingestAll rest w1 in
      (resp :: resps, w2)
  end.

(** How many replies are 202. *)
Definition accepted (resps : list Response) : Z :=
  len (filter (fun resp => (StatusCode resp =? StatusAccepted)%Z) resps).

(** The sample a request offers to the channel, if it gets that far. *)
Definition offered (now : Z) (r : Request) : option Metric :=
  if negb (String.eqb (Method r) "POST") then None
  else
    match Decode (Body r) zeroMetric with
    | inl m => Some (stamp now m)
    | inr _ => None
    end.

Section Runs.

Variable ParseFloat : string -> option float.
Variable FormatFloat : float -> string.
Variable Marshal : Analysis -> option string.

(** What can happen to the service, one thing at a time: a request to
    either endpoint, the worker [id] running for at most [n] samples, or
    time passing until the clock reads [t].  The clock stands still during
    one [Work]; a run of the worker with the clock moving is a sequence of
    [Work] and [Elapse]. *)
Inductive Action :=
| Ingest (r : Request)
| Analyze (r : Request)
| Work (id : Z) (n : nat)
| Elapse (t : Z).

Definition act (w : World) (a : Action) : World :=
  match a with
  | Ingest r => snd (handleIngest r w)
  | Analyze r => snd (handleAnalyze r w)
  | Work id n => worker ParseFloat FormatFloat Marshal id n w
  | Elapse t => elapse t w
  end.

Definition run (actions : list Action) (w : World) : World :=
  fold_left act actions w.

(** The iterations of the worker for the samples [ms], one after the
    other. *)
Definition processAll (id : Z) (ms : list Metric) (w : World) : World :=
  fold_left (fun w m => snd (iteration ParseFloat FormatFloat Marshal id m w))
            ms w.

(** The same with time passing: the iteration for the sample [m] of an
    entry [(t, m)] runs when the clock reads [t]. *)
Definition processTimed (id : Z) (tms : list (Z * Metric)) (w : World)
  : World :=
  fold_left (fun w tm => snd (iteration ParseFloat FormatFloat Marshal id
                                (snd tm) (elapse (fst tm) w)))
            tms w.

End Runs.

(** The channel with its first [k] samples received. *)
Definition received (k : nat) (w : World) : World :=
  with_metricsCh {| chan_cap := chan_cap (metricsCh w);
                    chan_buf := skipn k (chan_buf (metricsCh w)) |} w.


(** A computation of the worker that neither reads nor writes the
    channel: it runs the same way whatever the channel holds. *)
Definition channelBlind {A : Type} (c : M A) : Prop :=
  forall ch w,
    c (with_metricsCh ch w) = (fst (c w), with_metricsCh ch (snd (c w))).


(** The JSON text [b] has the member [name] with the value [value]. *)
Definition carries (b name value : string) : Prop :=
  exists pre post, b = pre ++ Json.field name value ++ post.

(** A line that [worker id] logs starts with its identity. *)
Definition logLineOf (id : Z) (line : string) : Prop :=
  exists rest, line = "[worker " ++ itoa id ++ "] redis " ++ rest.


(** ** The pool of workers (main.go, lines 88-92), step by step

    [StartWorkers(n)] starts the goroutines [worker(0)] ... [worker(n-1)].
    They share the channel, the store, the collectors and the log, and
    touch them one operation at a time: a receive, a round trip, a line
    logged, an update of a collector.  [Pc] is where a worker stands in the
    loop of lines 95-168 between two such operations, with the local
    variables it still needs. *)
Inductive Pc :=
| Idle                                          (* line 95 *)
| Pushing (m : Metric)                          (* line 96 *)
| Trimming (m : Metric)                         (* line 100 *)
| Reading (m : Metric)                          (* line 105 *)
| Persisting (anal : Analysis)                  (* line 157 *)
| Logging (line : string) (next : Pc)           (* lines 97, 101, 107, 158 *)
| SettingAvg (mean : float) (isAnomaly : bool)  (* line 161 *)
| CountingAnomaly                               (* line 163 *)
| SettingRate (x : float).                      (* lines 164, 166 *)

Section Pool.

Variable ParseFloat : string -> option float.
Variable FormatFloat : float -> string.
Variable Marshal : Analysis -> option string.

(** After a round trip: on, or to the log line and from there to [ko]. *)
Definition afterStore {R : Type} (id : Z) (what : string) (res : R + error)
    (ok : R -> Pc) (ko : Pc) : Pc :=
  match res with
  | inl r => ok r
  | inr e => Logging (workerLog id what e) ko
  end.

(** One operation of [worker(id)]; [None] when it waits on the empty
    channel. *)
Definition stepWorker (id : Z) (pc : Pc) (w : World) : option (Pc * World) :=
  match pc with
  | Idle =>
      match recv w with
      | Some (m, w') => Some (Pushing m, w')
      | None => None
      end
  | Pushing m =>
      let '(res, w') := roundTrip (LPUSH (FormatFloat (RPS m))) w in
      Some (afterStore id "LPUSH" res (fun _ => Trimming m) Idle, w')
  | Trimming m =>
      let '(res, w') := roundTrip (LTRIM 0 (windowSize - 1)) w in
      Some (afterStore id "LTRIM" res (fun _ => Reading m) Idle, w')
  | Reading m =>
      let '(res, w') := roundTrip (LRANGE 0 (windowSize - 1)) w in
      Some (afterStore id "LRANGE" res
              (fun values =>
                 Persisting (analyseWindow ParseFloat values m (unixNow w')))
              Idle, w')
  | Persisting anal =>
      let next := SettingAvg (RollingAvg anal) (IsAnomaly anal) in
      let '(res, w') := roundTrip (SET (jsonBytes Marshal anal)) w in
      Some (afterStore id "SET last_analysis" res (fun _ => next) next, w')
  | Logging line next => Some (next, say line w)
  | SettingAvg mean isAnomaly =>
      Some (if isAnomaly then CountingAnomaly else SettingRate 0,
            with_prom (setCurrentRollingAvg mean (prom w)) w)
  | CountingAnomaly =>
      Some (SettingRate 1, with_prom (incAnomalyTotal (prom w)) w)
  | SettingRate x =>
      Some (Idle, with_prom (setAnomalyRate x (prom w)) w)
  end.

(** A worker alone, until it is back at the head of the loop. *)
Fixpoint solo (id : Z) (fuel : nat) (pc : Pc) (w : World) : Pc * World :=
  match fuel with
  | O => (pc, w)
  | S fuel' =>
      match pc with
      | Idle => (pc, w)
      | _ =>
          match stepWorker id pc w with
          | Some (pc', w') => solo id fuel' pc' w'
          | None => (pc, w)
          end
      end
  end.

Fixpoint setNth {A : Type} (i : nat) (x : A) (l : list A) {struct l}
  : list A :=
  match l, i with
  | [], _ => []
  | _ :: rest, O => x :: rest
  | y :: rest, S i' => y :: setNth i' x rest
  end.

(** Lines 88-92: [n] workers at the head of their loops; the worker at
    position [i] is [worker(i)]. *)
Definition StartWorkers (n : nat) : list Pc := repeat Idle n.

(** What the scheduler and the clock do between two operations: worker
    [i] is let run for one operation, or time passes until the clock reads
    [t]. *)
Inductive Event :=
| Run (i : nat)
| Tick (t : Z).

(** One event.  The third component tells which sample a worker received
    from the channel, if that is what it did. *)
Definition stepPool (e : Event) (pcs : list Pc) (w : World)
  : list Pc * World * list (nat * Metric) :=
  match e with
  | Tick t => (pcs, elapse t w, [])
  | Run i =>
      match nth_error pcs i with
      | None => (pcs, w, [])
      | Some pc =>
          match stepWorker (Z.of_nat i) pc w with
          | None => (pcs, w, [])
          | Some (pc', w') =>
              (setNth i pc' pcs, w',
               match pc, pc' with
               | Idle, Pushing m => [(i, m)]
               | _, _ => []
               end)
          end
      end
  end.

Fixpoint runPool (schedule : list Event) (pcs : list Pc) (w : World)
  : list Pc * World * list (nat * Metric) :=
  match schedule with
  | [] => (pcs, w, [])
  | e :: rest =>
      let '(pcs1, w1, took1) := stepPool e pcs w in
      let '(pcs2, w2, took2) := runPool rest pcs1 w1 in
      (pcs2, w2, (took1 ++ took2)%list)
  end.

End Pool.


(** ** Worlds for the runs

    The service with two samples waiting in the channel, the ingest
    request of the README as a decoded sample, and the store after one
    sample near the largest [float64]. *)
Module Scenario.

Definition second : Metric := Example.triggering 130.

Definition twoQueued : World :=
  with_metricsCh {| chan_cap := 10000;
                    chan_buf := [Example.sample; second] |} Example.fresh.

Definition decoded : Metric := {| Timestamp := 0; CPU := 12; RPS := 120 |}.

Definition afterHuge : World := Example.after [Example.huge].

Definition hugeAgain : Metric := Example.triggering Example.huge.

End Scenario.

(** * Verification *)

(** ** float64 facts *)

Lemma Prim2SF_zero : Prim2SF 0%float = S754_zero false.
Proof. reflexivity. Qed.

Lemma gt_zero_spec (s : float) :
  (0 <? s)%float = true ->
  match Prim2SF s with
  | S754_infinity false | S754_finite false _ _ => True
  | _ => False
  end.
Proof.
  rewrite ltb_spec, Prim2SF_zero. intro H.
  destruct (Prim2SF s) as [b|b| |b p e]; try destruct b;
    simpl in H; try discriminate; exact I.
Qed.

Lemma SFeqb_refl_pos p e :
  SFeqb (S754_finite false p e) (S754_finite false p e) = true.
Proof.
  unfold SFeqb, SFcompare. rewrite Z.compare_refl.
  now rewrite Pos.compare_cont_refl.
Qed.

(** A [float64] that passes the test [> 0] is neither a zero nor NaN. *)
Lemma gt_zero_nonzero (s : float) :
  (0 <? s)%float = true -> (s =? 0)%float = false /\ is_nan s = false.
Proof.
  intro H. apply gt_zero_spec in H.
  unfold is_nan. rewrite !FloatAxioms.eqb_spec, Prim2SF_zero.
  destruct (Prim2SF s) as [b|b| |b p e]; try destruct b; try contradiction.
  - split; reflexivity.
  - split; [reflexivity|]. now rewrite SFeqb_refl_pos.
Qed.

Lemma finite_cases (v : float) :
  F64.finite v = true ->
  (exists s, Prim2SF v = S754_zero s)
  \/ (exists s m e, Prim2SF v = S754_finite s m e).
Proof.
  unfold F64.finite. intro H. apply andb_prop in H. destruct H as [Hn Hi].
  apply negb_true_iff in Hn. apply negb_true_iff in Hi.
  unfold Prim2SF. rewrite Hn, Hi.
  destruct (is_zero v); [left; eauto|].
  destruct (Z.frexp v) as [r ex].
  destruct (shr_fexp prec emax _ _ _) as [sh e'].
  destruct (shr_m sh); [left|right|left]; eauto.
Qed.

(** [v - v] is [+0] for every finite [v]. *)
Lemma sub_diag (v : float) : F64.finite v = true -> (v - v)%float = 0%float.
Proof.
  intro H. apply Prim2SF_inj. rewrite sub_spec, Prim2SF_zero.
  destruct (finite_cases v H) as [[s E]|(s & m & e & E)]; rewrite E.
  - destruct s; reflexivity.
  - unfold SF64sub, SFsub. now rewrite Z.sub_diag.
Qed.

(** [0 / float64(n)] is [+0] for the counts a window can have. *)
Lemma zero_div_count (n : nat) :
  (0 < n <= 50)%nat -> (0 / F64.of_int (Z.of_nat n))%float = 0%float.
Proof.
  intros [H1 H2].
  do 51 (destruct n as [|n]; [try lia; vm_compute; reflexivity|]).
  lia.
Qed.

(** ** The parsing loop and the statistics *)

Lemma len_pos {A : Type} (l : list A) : l <> [] -> (0 <? len l)%Z = true.
Proof.
  intro H. apply Z.ltb_lt. unfold len. destruct l; [congruence|simpl; lia].
Qed.

Lemma len_zero {A : Type} (l : list A) : len l = 0%Z -> l = [].
Proof. unfold len. destruct l; simpl; [reflexivity|lia]. Qed.

Lemma len_repeat {A : Type} (x : A) (k : nat) : len (repeat x k) = Z.of_nat k.
Proof. unfold len. now rewrite repeat_length. Qed.

Section ParseFacts.

Variable ParseFloat : string -> option float.

Lemma parseValues_from values : forall nums sum,
  fold_left (parseStep ParseFloat) values (nums, sum)
  = ((nums ++ parsed ParseFloat values)%list,
     fold_left PrimFloat.add (parsed ParseFloat values) sum).
Proof.
  induction values as [|v rest IH]; intros nums sum; simpl.
  - now rewrite app_nil_r.
  - destruct (ParseFloat v) as [f|]; rewrite IH; [|reflexivity].
    now rewrite <- app_assoc.
Qed.

(** The loop leaves in [nums] the entries that parse, in order, and in
    [sum] their left-to-right sum. *)
Lemma parseValues_spec values :
  parseValues ParseFloat values
  = (parsed ParseFloat values, sumOf (parsed ParseFloat values)).
Proof. unfold parseValues. now rewrite parseValues_from. Qed.

Lemma analyseWindow_engine values m now :
  analyseWindow ParseFloat values m now
  = engine (parsed ParseFloat values) m now.
Proof. unfold analyseWindow. now rewrite parseValues_spec. Qed.

Lemma parsed_filter values :
  parsed ParseFloat (filter (parses ParseFloat) values)
  = parsed ParseFloat values.
Proof.
  induction values as [|v rest IH]; simpl; [reflexivity|].
  unfold parses at 1. destruct (ParseFloat v) as [f|] eqn:E; simpl.
  - now rewrite E, IH.
  - exact IH.
Qed.

Lemma parsed_all values :
  Forall2 (fun v f => ParseFloat v = Some f)
          (filter (parses ParseFloat) values) (parsed ParseFloat values).
Proof.
  induction values as [|v rest IH]; simpl; [constructor|].
  unfold parses at 1. destruct (ParseFloat v) as [f|] eqn:E; simpl.
  - constructor; assumption.
  - exact IH.
Qed.

End ParseFacts.

Lemma engine_count nums m now : Count (engine nums m now) = len nums.
Proof. unfold engine, analyse. now destruct (meanStddev _ _). Qed.

Lemma analyse_z nums sum m now :
  ZScore (analyse nums sum m now)
  = zOf (Count (analyse nums sum m now)) (RollingAvg (analyse nums sum m now))
        (StdDev (analyse nums sum m now)) (RPS m).
Proof. unfold analyse. now destruct (meanStddev _ _). Qed.

Lemma analyse_flag nums sum m now :
  IsAnomaly (analyse nums sum m now)
  = isAnomalyOf (ZScore (analyse nums sum m now))
  /\ ThresholdZ (analyse nums sum m now) = zThreshold.
Proof. unfold analyse. now destruct (meanStddev _ _). Qed.

Lemma variance_as_sum mean : forall nums acc,
  fold_left (varianceStep mean) nums acc
  = fold_left PrimFloat.add
      (map (fun x => ((x - mean) * (x - mean))%float) nums) acc.
Proof.
  induction nums as [|x rest IH]; intro acc; simpl; [reflexivity|].
  now rewrite IH.
Qed.

Lemma variance_identical (v : float) :
  F64.finite v = true ->
  forall k, fold_left (varianceStep v) (repeat v k) 0%float = 0%float.
Proof.
  intros H k. induction k as [|k IH]; simpl; [reflexivity|].
  unfold varianceStep at 2. rewrite (sub_diag v H).
  replace (0 + 0 * 0)%float with 0%float by reflexivity. exact IH.
Qed.

(** ** C8: entries that do not parse *)

(** C8.  For every window snapshot [values], the parsing loop keeps exactly
    the entries that parse as floats, in their order ([kept]), and sums
    them; an entry that fails to parse is left out of [nums], [sum] and
    [Count] and the computation goes on: the [Analysis] of the snapshot is
    the [Analysis] of [kept]. *)
Theorem parse_failures_skipped (ParseFloat : string -> option float)
    (values : list string) (m : Metric) (now : Z) :
  let kept := filter (parses ParseFloat) values in
  let nums := parsed ParseFloat values in
  parseValues ParseFloat values = (nums, sumOf nums)
  /\ Forall2 (fun v f => ParseFloat v = Some f) kept nums
  /\ analyseWindow ParseFloat values m now = analyseWindow ParseFloat kept m now
  /\ analyseWindow ParseFloat values m now = engine nums m now
  /\ Count (analyseWindow ParseFloat values m now) = len kept.
Proof.
  intros kept nums. split; [apply parseValues_spec|].
  split; [apply parsed_all|]. split; [|split].
  - unfold kept. now rewrite !analyseWindow_engine, parsed_filter.
  - apply analyseWindow_engine.
  - rewrite analyseWindow_engine, engine_count. unfold len, kept.
    now rewrite <- (Forall2_length (parsed_all ParseFloat values)).
Qed.

(** ** C1: degenerate windows *)

(** C1, as amended.  For every parsed window [nums]: with no valid sample
    the mean, the standard deviation and the z-score are [0] and the flag
    is [false]; with one valid sample the z-score is [0] whatever the
    triggering RPS; and for [k > 1] copies of a finite [v] (at most the 50
    a window holds) with triggering RPS [v], whenever the [float64] mean of
    the window is exactly [v], the standard deviation and the z-score are
    [0]. *)
Theorem degenerate_windows (nums : list float) (m : Metric) (now : Z) :
  let a := engine nums m now in
  (Count a = 0%Z ->
     RollingAvg a = 0%float /\ StdDev a = 0%float /\ ZScore a = 0%float
     /\ IsAnomaly a = false)
  /\ (Count a = 1%Z -> ZScore a = 0%float)
  /\ (forall (k : nat) (v : float),
        (1 < k <= 50)%nat -> nums = repeat v k -> RPS m = v ->
        F64.finite v = true -> RollingAvg a = v ->
        StdDev a = 0%float /\ ZScore a = 0%float).
Proof.
  intro a. split; [|split].
  - intro H. unfold a in *. rewrite engine_count in H.
    apply len_zero in H. subst nums. repeat split.
  - intro H. unfold a in *. rewrite engine_count in H.
    unfold engine. rewrite analyse_z. fold (engine nums m now).
    rewrite engine_count, H. reflexivity.
  - intros k v Hk Hn Hr Hv. subst nums. unfold a. clear a.
    unfold engine, analyse, meanStddev. rewrite len_repeat.
    replace (0 <? Z.of_nat k)%Z with true by (symmetry; apply Z.ltb_lt; lia).
    simpl. intro E. rewrite E, (variance_identical v Hv), zero_div_count by lia.
    split; [reflexivity|].
    unfold zOf. replace (0 <? PrimFloat.sqrt 0)%float with false by reflexivity.
    now rewrite andb_false_r.
Qed.

Lemma degenerate_windows_witness :
  (RollingAvg (engine [] Example.sample 0) = 0%float
   /\ StdDev (engine [] Example.sample 0) = 0%float
   /\ ZScore (engine [] Example.sample 0) = 0%float
   /\ IsAnomaly (engine [] Example.sample 0) = false)
  /\ ZScore (engine [7%float] Example.sample 0) = 0%float
  /\ (StdDev (engine (repeat 120%float 3) Example.sample 0) = 0%float
      /\ ZScore (engine (repeat 120%float 3) Example.sample 0) = 0%float).
Proof.
  split; [|split].
  - apply (degenerate_windows [] Example.sample 0). reflexivity.
  - apply (degenerate_windows [7%float] Example.sample 0). reflexivity.
  - apply (proj2 (proj2 (degenerate_windows (repeat 120%float 3)
                           Example.sample 0)) 3%nat 120%float).
    + lia.
    + reflexivity.
    + reflexivity.
    + reflexivity.
    + vm_compute. reflexivity.
Defined.

(** C1, as stated, fails: three samples of 0.1 with triggering RPS 0.1.
    The sum 0.1 + 0.1 + 0.1 rounds up, the mean is the next [float64]
    above 0.1, and the standard deviation is 2^-56, not 0; the z-score is
    -1.  It is the [Analysis] of the third of three requests with RPS 0.1
    on a fresh service. *)
Lemma identical_window_counterexample :
  let v := Example.tenth in
  let a := engine (repeat v 3) (Example.triggering v) Example.now in
  let w := Example.after [v; v] in
  let b := analysisOf Strconv.ParseFloat Strconv.FormatFloat
             (Example.triggering v) w in
  (Count a = 3%Z
   /\ StdDev a = 0x1p-56%float /\ ZScore a = (-1)%float
   /\ ~ (StdDev a = 0%float /\ ZScore a = 0%float))
  /\ (snapshot Strconv.FormatFloat (Example.triggering v) w
      = ["0.1"; "0.1"; "0.1"]
      /\ b = a).
Proof.
  intros v a w b. split.
  - split; [reflexivity|]. split; [vm_compute; reflexivity|].
    split; [vm_compute; reflexivity|].
    intros [H _]. apply (f_equal (fun x => PrimFloat.eqb x 0)) in H.
    vm_compute in H. discriminate.
  - split; vm_compute; reflexivity.
Qed.

(** ** C2: the guard of the z-score *)

(** C2, as amended.  In every iteration the z-score is
    [(RPS - mean) / stddev] exactly when [count > 1] and [stddev > 0], and
    [0] otherwise; under that guard the divisor is neither a zero nor NaN,
    so no division by zero takes place.  (The quotient itself is not
    promised to be finite.) *)
Theorem zscore_guard (ParseFloat : string -> option float)
    (values : list string) (m : Metric) (now : Z) :
  let a := analyseWindow ParseFloat values m now in
  ((1 < Count a)%Z /\ (0 <? StdDev a)%float = true ->
     ZScore a = ((RPS m - RollingAvg a) / StdDev a)%float
     /\ (StdDev a =? 0)%float = false /\ is_nan (StdDev a) = false)
  /\ (~ ((1 < Count a)%Z /\ (0 <? StdDev a)%float = true) ->
      ZScore a = 0%float).
Proof.
  intro a. unfold a, analyseWindow. destruct (parseValues _ _) as [nums sum].
  rewrite analyse_z. unfold zOf. split.
  - intros [Hc Hs]. apply Z.ltb_lt in Hc. rewrite Hc, Hs. simpl.
    split; [reflexivity|]. now apply gt_zero_nonzero.
  - intro H. destruct (1 <? _)%Z eqn:Hc; [|reflexivity].
    destruct (0 <? _)%float eqn:Hs; [|reflexivity].
    exfalso. apply H. split; [now apply Z.ltb_lt|reflexivity].
Qed.

Lemma zscore_guard_witness :
  let a := analyseWindow Strconv.ParseFloat ["10"; "20"; "30"]
             (Example.triggering 30) Example.now in
  let b := analyseWindow Strconv.ParseFloat ["120"]
             (Example.triggering 120) Example.now in
  (ZScore a = ((30 - RollingAvg a) / StdDev a)%float
   /\ (StdDev a =? 0)%float = false /\ is_nan (StdDev a) = false)
  /\ ZScore b = 0%float.
Proof.
  intros a b. split.
  - apply (zscore_guard Strconv.ParseFloat ["10"; "20"; "30"]
             (Example.triggering 30) Example.now).
    split; vm_compute; reflexivity.
  - apply (zscore_guard Strconv.ParseFloat ["120"]
             (Example.triggering 120) Example.now).
    intros [H _]. vm_compute in H. discriminate.
Defined.

(** C2, as stated, fails: two samples of 1e308 with triggering RPS 1e308.
    The sum overflows, mean and standard deviation are +Inf, the guard
    [count > 1 && stddev > 0] holds, and the quotient is NaN.  It is the
    z-score of the second of two requests with RPS 1e308 on a fresh
    service. *)
Lemma zscore_nan_counterexample :
  let v := Example.huge in
  let a := engine [v; v] (Example.triggering v) Example.now in
  let w := Example.after [v] in
  let b := analysisOf Strconv.ParseFloat Strconv.FormatFloat
             (Example.triggering v) w in
  (Count a = 2%Z /\ RollingAvg a = infinity /\ StdDev a = infinity
   /\ (0 <? StdDev a)%float = true
   /\ is_nan (ZScore a) = true)
  /\ (Count b = 2%Z /\ (0 <? StdDev b)%float = true
      /\ is_nan (ZScore b) = true).
Proof. vm_compute. repeat split. Qed.

(** ** C3: mean and population standard deviation *)

(** C3.  For every non-empty parsed window the mean is the arithmetic mean
    of the samples and the standard deviation is the population standard
    deviation (the squared deviations are summed and divided by [count]);
    for the window 10, 20, 30 the mean is exactly 20 and the standard
    deviation is [sqrt (200 / 3)], between 8.1649 and 8.1650, where
    dividing by [count - 1] would have given 10. *)
Theorem mean_and_population_stddev (nums : list float) (m : Metric) (now : Z) :
  (nums <> [] ->
     RollingAvg (engine nums m now) = arithmeticMean nums
     /\ StdDev (engine nums m now) = populationStdDev nums)
  /\ RollingAvg (engine [10; 20; 30]%float m now) = 20%float
  /\ StdDev (engine [10; 20; 30]%float m now) = PrimFloat.sqrt (200 / 3)%float
  /\ (81649 <? StdDev (engine [10; 20; 30]%float m now) * 10000)%float = true
  /\ (StdDev (engine [10; 20; 30]%float m now) * 10000 <? 81650)%float = true
  /\ sampleStdDev [10; 20; 30]%float = 10%float.
Proof.
  split.
  - intro H. unfold engine, analyse, meanStddev.
    rewrite (len_pos nums H). simpl.
    unfold populationStdDev, squaredDeviations, arithmeticMean, sumOf.
    now rewrite variance_as_sum.
  - repeat split; vm_compute; reflexivity.
Qed.

Lemma mean_and_population_stddev_witness :
  RollingAvg (engine [10; 20; 30]%float Example.sample Example.now)
  = arithmeticMean [10; 20; 30]%float
  /\ StdDev (engine [10; 20; 30]%float Example.sample Example.now)
     = populationStdDev [10; 20; 30]%float.
Proof.
  apply (mean_and_population_stddev [10; 20; 30]%float Example.sample
           Example.now).
  discriminate.
Defined.


(** ** One iteration of the worker, case by case *)

Lemma bind_assoc {A B C : Type} (c : M A) (f : A -> M B) (k : B -> M C) w :
  bind (bind c f) k w = bind c (fun a => bind (f a) k) w.
Proof. unfold bind. destruct (c w) as [[a|] w']; reflexivity. Qed.

Lemma bind_served {R B : Type} (cmd : Redis -> R * Redis)
    (k : R + error -> M B) w :
  fault (nextTurn w) = None ->
  bind (lift (roundTrip cmd)) k w
  = k (inl (fst (cmd (others (nextTurn w) (rdb w))))) (served cmd w).
Proof. intro H. unfold bind, lift, roundTrip. now rewrite H. Qed.

Lemma bind_failed {R B : Type} (cmd : Redis -> R * Redis)
    (k : R + error -> M B) w e :
  fault (nextTurn w) = Some e ->
  bind (lift (roundTrip cmd)) k w = k (inr (errorString e)) (failed w).
Proof. intro H. unfold bind, lift, roundTrip. now rewrite H. Qed.

Lemma bind_continue {R B : Type} id what e (k : R -> M B) w :
  bind (orContinue id what (inr e)) k w = (None, say (workerLog id what e) w).
Proof. reflexivity. Qed.

Lemma bind_go_on {R B : Type} id what (r : R) (k : R -> M B) w :
  bind (orContinue id what (inl r)) k w = k r w.
Proof. reflexivity. Qed.

Section IterationFacts.

Variable ParseFloat : string -> option float.
Variable FormatFloat : float -> string.
Variable Marshal : Analysis -> option string.

Lemma readWindow_ok id m w :
  fault (nextTurn w) = None ->
  fault (nextTurn (afterPush FormatFloat m w)) = None ->
  fault (nextTurn (afterTrim FormatFloat m w)) = None ->
  readWindow FormatFloat id m w
  = (Some (snapshot FormatFloat m w), afterRead FormatFloat m w).
Proof.
  intros H1 H2 H3. unfold readWindow.
  rewrite (bind_served _ _ _ H1), bind_go_on.
  fold (afterPush FormatFloat m w).
  rewrite (bind_served _ _ _ H2), bind_go_on.
  fold (afterTrim FormatFloat m w).
  now rewrite (bind_served _ _ _ H3).
Qed.

Lemma readWindow_push_fails id m w e :
  fault (nextTurn w) = Some e ->
  readWindow FormatFloat id m w
  = (None, say (workerLog id "LPUSH" (errorString e)) (failed w)).
Proof.
  intro H1. unfold readWindow.
  now rewrite (bind_failed _ _ _ _ H1), bind_continue.
Qed.

Lemma readWindow_trim_fails id m w e :
  fault (nextTurn w) = None ->
  fault (nextTurn (afterPush FormatFloat m w)) = Some e ->
  readWindow FormatFloat id m w
  = (None, say (workerLog id "LTRIM" (errorString e))
             (failed (afterPush FormatFloat m w))).
Proof.
  intros H1 H2. unfold readWindow.
  rewrite (bind_served _ _ _ H1), bind_go_on.
  fold (afterPush FormatFloat m w).
  now rewrite (bind_failed _ _ _ _ H2), bind_continue.
Qed.

Lemma readWindow_read_fails id m w e :
  fault (nextTurn w) = None ->
  fault (nextTurn (afterPush FormatFloat m w)) = None ->
  fault (nextTurn (afterTrim FormatFloat m w)) = Some e ->
  readWindow FormatFloat id m w
  = (None, say (workerLog id "LRANGE" (errorString e))
             (failed (afterTrim FormatFloat m w))).
Proof.
  intros H1 H2 H3. unfold readWindow.
  rewrite (bind_served _ _ _ H1), bind_go_on.
  fold (afterPush FormatFloat m w).
  rewrite (bind_served _ _ _ H2), bind_go_on.
  fold (afterTrim FormatFloat m w).
  now rewrite (bind_failed _ _ _ _ H3).
Qed.

(** The read succeeds only through three served round trips. *)
Lemma readWindow_inv id m w values w1 :
  readWindow FormatFloat id m w = (Some values, w1) ->
  fault (nextTurn w) = None
  /\ fault (nextTurn (afterPush FormatFloat m w)) = None
  /\ fault (nextTurn (afterTrim FormatFloat m w)) = None
  /\ values = snapshot FormatFloat m w /\ w1 = afterRead FormatFloat m w.
Proof.
  destruct (fault (nextTurn w)) eqn:H1;
    [rewrite (readWindow_push_fails id m w _ H1); discriminate|].
  destruct (fault (nextTurn (afterPush FormatFloat m w))) eqn:H2;
    [rewrite (readWindow_trim_fails id m w _ H1 H2); discriminate|].
  destruct (fault (nextTurn (afterTrim FormatFloat m w))) eqn:H3;
    [rewrite (readWindow_read_fails id m w _ H1 H2 H3); discriminate|].
  rewrite (readWindow_ok id m w H1 H2 H3). intro H. inversion H.
  repeat split; reflexivity.
Qed.

Lemma iteration_aborted id m w w' :
  readWindow FormatFloat id m w = (None, w') ->
  iteration ParseFloat FormatFloat Marshal id m w = (None, w').
Proof. intro H. unfold iteration, bind at 1. now rewrite H. Qed.

Lemma iteration_after_read id m w :
  readWindow FormatFloat id m w
  = (Some (snapshot FormatFloat m w), afterRead FormatFloat m w) ->
  iteration ParseFloat FormatFloat Marshal id m w
  = (Some tt,
     with_prom (gauges (analysisOf ParseFloat FormatFloat m w) (prom w))
       match fault (nextTurn (afterRead FormatFloat m w)) with
       | Some e =>
           say (workerLog id "SET last_analysis" (errorString e))
               (failed (afterRead FormatFloat m w))
       | None =>
           served (SET (jsonBytes Marshal
                          (analysisOf ParseFloat FormatFloat m w)))
                  (afterRead FormatFloat m w)
       end).
Proof.
  intro H. unfold iteration, bind at 1. rewrite H.
  unfold timeNowUnix, bind at 1.
  change (unixNow (afterRead FormatFloat m w)) with (unixNow w).
  fold (analysisOf ParseFloat FormatFloat m w).
  unfold persist.
  fold (jsonBytes Marshal (analysisOf ParseFloat FormatFloat m w)).
  unfold observe, gauges.
  destruct (fault (nextTurn (afterRead FormatFloat m w))) eqn:H4.
  - rewrite bind_assoc, (bind_failed _ _ _ _ H4).
    destruct (IsAnomaly (analysisOf ParseFloat FormatFloat m w)); reflexivity.
  - rewrite bind_assoc, (bind_served _ _ _ H4).
    destruct (IsAnomaly (analysisOf ParseFloat FormatFloat m w)); reflexivity.
Qed.

(** Nothing in an iteration sends to or receives from the channel. *)
Lemma iteration_metricsCh id m w :
  metricsCh (snd (iteration ParseFloat FormatFloat Marshal id m w))
  = metricsCh w.
Proof.
  destruct (fault (nextTurn w)) eqn:H1;
    [now rewrite (iteration_aborted id m w _
                    (readWindow_push_fails id m w _ H1))|].
  destruct (fault (nextTurn (afterPush FormatFloat m w))) eqn:H2;
    [now rewrite (iteration_aborted id m w _
                    (readWindow_trim_fails id m w _ H1 H2))|].
  destruct (fault (nextTurn (afterTrim FormatFloat m w))) eqn:H3;
    [now rewrite (iteration_aborted id m w _
                    (readWindow_read_fails id m w _ H1 H2 H3))|].
  rewrite (iteration_after_read id m w (readWindow_ok id m w H1 H2 H3)).
  now destruct (fault (nextTurn (afterRead FormatFloat m w))).
Qed.

End IterationFacts.

(** ** The window commands *)

Lemma lrange_prefix (l : list string) (n : Z) :
  (0 <= n)%Z -> lrange l 0 n = firstn (Z.to_nat (n + 1)) l.
Proof.
  intro Hn. unfold lrange. simpl.
  assert (E : (n <? 0)%Z = false) by (apply Z.ltb_ge; lia).
  rewrite E. simpl. rewrite E. simpl.
  destruct (len l <=? 0)%Z eqn:E0.
  - apply Z.leb_le in E0. unfold len in E0. destruct l; [|simpl in E0; lia].
    simpl. now rewrite firstn_nil.
  - destruct (len l <=? n)%Z eqn:E1.
    + apply Z.leb_le in E1. apply Z.leb_gt in E0.
      replace (len l - 1 - 0 + 1)%Z with (len l) by lia.
      unfold len in *. rewrite Nat2Z.id.
      rewrite firstn_all. symmetry. apply firstn_all2. lia.
    + now replace (n - 0 + 1)%Z with (n + 1)%Z by lia.
Qed.

Lemma lrange_window (l : list string) :
  lrange l 0 (windowSize - 1) = firstn 50 l.
Proof. now rewrite lrange_prefix by (unfold windowSize; lia). Qed.

Lemma lrange_window_length (l : list string) :
  (len (lrange l 0 (windowSize - 1)) <= windowSize)%Z.
Proof.
  rewrite lrange_window. unfold len. rewrite length_firstn.
  change windowSize with 50%Z. lia.
Qed.

Lemma pushes_window (pushes : list string) : forall r,
  rps_window (fold_left (fun r v => snd (LPUSH v r)) pushes r)
  = (rev pushes ++ rps_window r)%list.
Proof.
  induction pushes as [|v rest IH]; intro r; simpl; [reflexivity|].
  rewrite IH. simpl. now rewrite <- app_assoc.
Qed.

Lemma parsed_length (ParseFloat : string -> option float) values :
  (len (parsed ParseFloat values) <= len values)%Z.
Proof.
  unfold len. induction values as [|v rest IH]; simpl; [lia|].
  destruct (ParseFloat v); simpl; lia.
Qed.

(** ** C9: the window snapshot is bounded *)

(** C9.  After any number of pushes on any window, a trim to the indices
    0..49 followed by a read of the same range yields at most 50 entries
    (the 50 most recent pushes first); and whatever the other clients of
    the store do between the round trips of a worker, the snapshot it reads
    has at most 50 entries, so that [Count] is at most 50. *)
Theorem window_snapshot_bounded (ParseFloat : string -> option float)
    (FormatFloat : float -> string)
    (pushes : list string) (r : Redis)
    (id : Z) (m : Metric) (w : World) (values : list string) (w1 : World) :
  let pushed := fold_left (fun r v => snd (LPUSH v r)) pushes r in
  let trimmed := snd (LTRIM 0 (windowSize - 1) pushed) in
  (len (fst (LRANGE 0 (windowSize - 1) trimmed)) <= windowSize)%Z
  /\ fst (LRANGE 0 (windowSize - 1) trimmed)
     = firstn 50 (rev pushes ++ rps_window r)
  /\ (readWindow FormatFloat id m w = (Some values, w1) ->
      (len values <= windowSize)%Z
      /\ (Count (analyseWindow ParseFloat values m (unixNow w1))
          <= windowSize)%Z).
Proof.
  intros pushed trimmed. split; [apply lrange_window_length|]. split.
  - unfold trimmed, pushed. simpl. rewrite !lrange_window, pushes_window.
    now rewrite firstn_firstn.
  - intro H. apply readWindow_inv in H. destruct H as (_ & _ & _ & Hv & _).
    assert (L : (len values <= windowSize)%Z)
      by (subst values; apply lrange_window_length).
    split; [exact L|].
    rewrite analyseWindow_engine, engine_count.
    pose proof (parsed_length ParseFloat values). lia.
Qed.

Lemma window_snapshot_bounded_witness :
  let w := Example.facing [] in
  (len (snapshot Strconv.FormatFloat Example.sample w) <= windowSize)%Z
  /\ (Count (analyseWindow Strconv.ParseFloat
               (snapshot Strconv.FormatFloat Example.sample w)
               Example.sample
               (unixNow (afterRead Strconv.FormatFloat Example.sample w)))
      <= windowSize)%Z.
Proof.
  intro w.
  apply (window_snapshot_bounded Strconv.ParseFloat Strconv.FormatFloat
           [] Example.emptyStore 0 Example.sample w
           (snapshot Strconv.FormatFloat Example.sample w)
           (afterRead Strconv.FormatFloat Example.sample w)).
  reflexivity.
Defined.

(** ** What [json.Marshal] writes *)

Lemma append_assoc (a b c : string) : (a ++ b) ++ c = a ++ b ++ c.
Proof. induction a as [|x a IH]; simpl; [reflexivity|now rewrite IH]. Qed.






(** The members of the JSON object that the statements below read. *)
Lemma Marshal_carries (a : Analysis) (b : string) :
  Json.Marshal a = Some b ->
  carries b "isAnomaly" (Json.encodeBool (IsAnomaly a))
  /\ (exists rps, Json.encodeFloat (LastRPS a) = Some rps
                  /\ carries b "lastRps" rps)
  /\ (exists cpu, Json.encodeFloat (LastCPU a) = Some cpu
                  /\ carries b "lastCpu" cpu)
  /\ carries b "lastTimestamp" (Json.encodeInt (LastTs a))
  /\ (exists th, Json.encodeFloat (ThresholdZ a) = Some th
                 /\ carries b "thresholdZ" th)
  /\ carries b "computedAt" (Json.encodeInt (ComputedAt a)).
Proof.
  unfold Json.Marshal.
  destruct (Json.encodeFloat (RollingAvg a)) as [avg|]; [|discriminate].
  destruct (Json.encodeFloat (StdDev a)) as [sd|]; [|discriminate].
  destruct (Json.encodeFloat (ZScore a)) as [z|]; [|discriminate].
  destruct (Json.encodeFloat (LastRPS a)) as [rps|]; [|discriminate].
  destruct (Json.encodeFloat (LastCPU a)) as [cpu|]; [|discriminate].
  destruct (Json.encodeFloat (ThresholdZ a)) as [th|]; [|discriminate].
  intro H. inversion H as [Hb]. clear H Hb.
  set (f1 := Json.field "count" (Json.encodeInt (Count a))).
  set (f2 := Json.field "windowSize" (Json.encodeInt (WindowSize a))).
  set (f3 := Json.field "rollingAvg" avg).
  set (f4 := Json.field "stdDev" sd).
  set (f5 := Json.field "zScore" z).
  set (f6 := Json.field "isAnomaly" (Json.encodeBool (IsAnomaly a))).
  set (f7 := Json.field "lastRps" rps).
  set (f8 := Json.field "lastCpu" cpu).
  set (f9 := Json.field "lastTimestamp" (Json.encodeInt (LastTs a))).
  set (f10 := Json.field "thresholdZ" th).
  set (f11 := Json.field "computedAt" (Json.encodeInt (ComputedAt a))).
  split.
  { exists ("{" ++ f1 ++ "," ++ f2 ++ "," ++ f3 ++ "," ++ f4 ++ "," ++ f5 ++ ",").
    eexists. fold f6. rewrite !append_assoc. reflexivity. }
  split.
  { exists rps. split; [reflexivity|].
    exists ("{" ++ f1 ++ "," ++ f2 ++ "," ++ f3 ++ "," ++ f4 ++ "," ++ f5
                ++ "," ++ f6 ++ ",").
    eexists. fold f7. rewrite !append_assoc. reflexivity. }
  split.
  { exists cpu. split; [reflexivity|].
    exists ("{" ++ f1 ++ "," ++ f2 ++ "," ++ f3 ++ "," ++ f4 ++ "," ++ f5
                ++ "," ++ f6 ++ "," ++ f7 ++ ",").
    eexists. fold f8. rewrite !append_assoc. reflexivity. }
  split.
  { exists ("{" ++ f1 ++ "," ++ f2 ++ "," ++ f3 ++ "," ++ f4 ++ "," ++ f5
                ++ "," ++ f6 ++ "," ++ f7 ++ "," ++ f8 ++ ",").
    eexists. fold f9. rewrite !append_assoc. reflexivity. }
  split.
  { exists th. split; [reflexivity|].
    exists ("{" ++ f1 ++ "," ++ f2 ++ "," ++ f3 ++ "," ++ f4 ++ "," ++ f5
                ++ "," ++ f6 ++ "," ++ f7 ++ "," ++ f8 ++ "," ++ f9 ++ ",").
    eexists. fold f10. rewrite !append_assoc. reflexivity. }
  exists ("{" ++ f1 ++ "," ++ f2 ++ "," ++ f3 ++ "," ++ f4 ++ "," ++ f5
              ++ "," ++ f6 ++ "," ++ f7 ++ "," ++ f8 ++ "," ++ f9 ++ ","
              ++ f10 ++ ",").
  eexists. fold f11. rewrite !append_assoc. reflexivity.
Qed.


(** ** C4: the anomaly flag and the threshold *)




(** ** C6: failures of the store *)

(** C6, as amended.  When the push, the trim or the read fails, the
    failure is logged with the worker identity, no further round trip is
    made for the sample and no later step runs: nothing is persisted and
    the collectors are untouched.  When the persist fails, the failure is
    logged with the worker identity and the SET is not repeated, and the
    collectors are then updated from the computed [Analysis] as in a
    successful iteration.  In every case the sample is not put back on the
    channel, and the worker goes on with the next queued sample. *)
Theorem store_failure_semantics (ParseFloat : string -> option float)
    (FormatFloat : float -> string) (Marshal : Analysis -> option string)
    (id : Z) (m : Metric) (w : World) (e : string) :
  let run := iteration ParseFloat FormatFloat Marshal id m w in
  (fault (nextTurn w) = Some e ->
     run = (None, say (workerLog id "LPUSH" (errorString e)) (failed w)))
  /\ (fault (nextTurn w) = None ->
      fault (nextTurn (afterPush FormatFloat m w)) = Some e ->
      run = (None, say (workerLog id "LTRIM" (errorString e))
                     (failed (afterPush FormatFloat m w))))
  /\ (fault (nextTurn w) = None ->
      fault (nextTurn (afterPush FormatFloat m w)) = None ->
      fault (nextTurn (afterTrim FormatFloat m w)) = Some e ->
      run = (None, say (workerLog id "LRANGE" (errorString e))
                     (failed (afterTrim FormatFloat m w))))
  /\ (fault (nextTurn w) = None ->
      fault (nextTurn (afterPush FormatFloat m w)) = None ->
      fault (nextTurn (afterTrim FormatFloat m w)) = None ->
      fault (nextTurn (afterRead FormatFloat m w)) = Some e ->
      run = (Some tt,
             with_prom (gauges (analysisOf ParseFloat FormatFloat m w) (prom w))
               (say (workerLog id "SET last_analysis" (errorString e))
                  (failed (afterRead FormatFloat m w)))))
  /\ (fst run = None -> prom (snd run) = prom w)
  /\ (forall (queued : World) (n : nat),
        recv queued = Some (m, w) ->
        worker ParseFloat FormatFloat Marshal id (S n) queued
        = worker ParseFloat FormatFloat Marshal id n (snd run)
        /\ chan_buf (metricsCh (snd run)) = tl (chan_buf (metricsCh queued))).
Proof.
  intro run. unfold run.
  split; [intro H1; apply iteration_aborted;
          now apply readWindow_push_fails|].
  split; [intros H1 H2; apply iteration_aborted;
          now apply readWindow_trim_fails|].
  split; [intros H1 H2 H3; apply iteration_aborted;
          now apply readWindow_read_fails|].
  split.
  - intros H1 H2 H3 H4.
    rewrite (iteration_after_read ParseFloat FormatFloat Marshal id m w
               (readWindow_ok FormatFloat id m w H1 H2 H3)).
    now rewrite H4.
  - split.
    + destruct (fault (nextTurn w)) eqn:H1;
        [now rewrite (iteration_aborted ParseFloat FormatFloat Marshal id m w _
                        (readWindow_push_fails FormatFloat id m w _ H1))|].
      destruct (fault (nextTurn (afterPush FormatFloat m w))) eqn:H2;
        [now rewrite (iteration_aborted ParseFloat FormatFloat Marshal id m w _
                        (readWindow_trim_fails FormatFloat id m w _ H1 H2))|].
      destruct (fault (nextTurn (afterTrim FormatFloat m w))) eqn:H3;
        [now rewrite (iteration_aborted ParseFloat FormatFloat Marshal id m w _
                        (readWindow_read_fails FormatFloat id m w _ H1 H2 H3))|].
      rewrite (iteration_after_read ParseFloat FormatFloat Marshal id m w
                 (readWindow_ok FormatFloat id m w H1 H2 H3)).
      discriminate.
    + intros queued n Hq. simpl. rewrite Hq. split; [reflexivity|].
      rewrite iteration_metricsCh. unfold recv in Hq.
      destruct (chan_buf (metricsCh queued)) as [|m' rest]; [discriminate|].
      now inversion Hq.
Qed.

Lemma store_failure_semantics_witness :
  Example.iteration 0 Example.sample Example.setFails
  = (Some tt,
     with_prom
       (gauges (analysisOf Strconv.ParseFloat Strconv.FormatFloat
                  Example.sample Example.setFails) (prom Example.setFails))
       (say (workerLog 0 "SET last_analysis" (errorString "EOF"))
          (failed (afterRead Strconv.FormatFloat Example.sample
                     Example.setFails))))
  /\ Example.iteration 0 Example.sample Example.pushFails
     = (None, say (workerLog 0 "LPUSH" (errorString "EOF"))
                (failed Example.pushFails))
  /\ Example.iteration 0 Example.sample Example.trimFails
     = (None, say (workerLog 0 "LTRIM" (errorString "EOF"))
                (failed (afterPush Strconv.FormatFloat Example.sample
                           Example.trimFails)))
  /\ Example.iteration 0 Example.sample Example.readFails
     = (None, say (workerLog 0 "LRANGE" (errorString "EOF"))
                (failed (afterTrim Strconv.FormatFloat Example.sample
                           Example.readFails)))
  /\ prom (snd (Example.iteration 0 Example.sample Example.pushFails))
     = prom Example.pushFails.
Proof.
  split; [|split; [|split; [|split]]].
  - refine (proj1 (proj2 (proj2 (proj2
      (store_failure_semantics Strconv.ParseFloat Strconv.FormatFloat
         Json.Marshal 0 Example.sample Example.setFails "EOF")))) _ _ _ _);
      vm_compute; reflexivity.
  - refine (proj1
      (store_failure_semantics Strconv.ParseFloat Strconv.FormatFloat
         Json.Marshal 0 Example.sample Example.pushFails "EOF") _);
      vm_compute; reflexivity.
  - refine (proj1 (proj2
      (store_failure_semantics Strconv.ParseFloat Strconv.FormatFloat
         Json.Marshal 0 Example.sample Example.trimFails "EOF")) _ _);
      vm_compute; reflexivity.
  - refine (proj1 (proj2 (proj2
      (store_failure_semantics Strconv.ParseFloat Strconv.FormatFloat
         Json.Marshal 0 Example.sample Example.readFails "EOF"))) _ _ _);
      vm_compute; reflexivity.
  - refine (proj1 (proj2 (proj2 (proj2 (proj2
      (store_failure_semantics Strconv.ParseFloat Strconv.FormatFloat
         Json.Marshal 0 Example.sample Example.pushFails "EOF"))))) _);
      vm_compute; reflexivity.
Defined.

(** C6, as stated, fails: the SET of a first sample fails with [EOF].  The
    failure is logged and nothing is stored, and the rolling-average gauge
    is then set to 120: the collectors are updated for that sample. *)
Lemma persist_failure_counterexample :
  logged (snd (Example.iteration 0 Example.sample Example.setFails))
  = ["[worker 0] redis SET last_analysis error: EOF"]
  /\ last_analysis
       (rdb (snd (Example.iteration 0 Example.sample Example.setFails)))
     = None
  /\ currentRollingAvg (prom Example.setFails) = 0%float
  /\ currentRollingAvg
       (prom (snd (Example.iteration 0 Example.sample Example.setFails)))
     = 120%float
  /\ prom (snd (Example.iteration 0 Example.sample Example.setFails))
     <> prom Example.setFails.
Proof.
  split; [vm_compute; reflexivity|].
  split; [vm_compute; reflexivity|].
  split; [vm_compute; reflexivity|].
  split; [vm_compute; reflexivity|].
  intro H.
  apply (f_equal (fun p => PrimFloat.eqb (currentRollingAvg p) 120)) in H.
  vm_compute in H. discriminate.
Qed.

(** ** The handlers *)

Lemma NewService_cap r net now :
  chan_cap (metricsCh (NewService r net now)) = 10000%Z
  /\ chan_buf (metricsCh (NewService r net now)) = [].
Proof. split; reflexivity. Qed.

Lemma trySend_room ch m :
  (len (chan_buf ch) < chan_cap ch)%Z ->
  trySend ch m
  = Some {| chan_cap := chan_cap ch; chan_buf := (chan_buf ch ++ [m])%list |}.
Proof. intro H. unfold trySend. apply Z.ltb_lt in H. now rewrite H. Qed.


(** The capacity of the channel never changes. *)
Lemma handleIngest_cap r w :
  chan_cap (metricsCh (snd (handleIngest r w))) = chan_cap (metricsCh w).
Proof.
  unfold handleIngest, handleIngestBody.
  destruct (negb (Method r =? "POST")); [reflexivity|].
  destruct (Decode (Body r) zeroMetric) as [m|err]; [|reflexivity].
  unfold trySend.
  now destruct (len (chan_buf (metricsCh w)) <? chan_cap (metricsCh w))%Z.
Qed.

Lemma post_method r : Method r = "POST" -> negb (Method r =? "POST") = false.
Proof. intro H. rewrite H. reflexivity. Qed.

(** ** C5: admission *)



(** ** C10: what /ingest rejects as a bad request *)

(** C10.  For every POST /ingest the reply is 400 exactly when the body
    fails to decode.  A body without fields, [{}], is offered to the
    channel as the sample with CPU 0, RPS 0 and the current time, and is
    accepted when there is room; a timestamp that is absent or zero is
    replaced by the current time and any other is kept; CPU and RPS reach
    the channel as decoded, whatever their values, and as 0 when absent. *)
Theorem ingest_decoding (r : Request) (w : World) :
  Method r = "POST" ->
  let resp := fst (handleIngest r w) in
  let w' := snd (handleIngest r w) in
  let room := (len (chan_buf (metricsCh w)) < chan_cap (metricsCh w))%Z in
  (StatusCode resp = 400%Z <-> exists err, Body r = BadJSON err)
  /\ (Body r = JSONFields None None None -> room ->
      StatusCode resp = 202%Z
      /\ chan_buf (metricsCh w')
         = (chan_buf (metricsCh w)
              ++ [{| Timestamp := unixNow w; CPU := 0; RPS := 0 |}])%list)
  /\ (forall (ts : option Z) (cpu rps : option float),
        Body r = JSONFields ts cpu rps -> room ->
        StatusCode resp = 202%Z
        /\ chan_buf (metricsCh w')
           = (chan_buf (metricsCh w)
                ++ [{| Timestamp := match ts with
                                    | None | Some 0%Z => unixNow w
                                    | Some t => t
                                    end;
                       CPU := match cpu with Some c => c | None => 0%float end;
                       RPS := match rps with Some x => x | None => 0%float end
                    |}])%list).
Proof.
  intros Hm resp w' room.
  unfold resp, w', room, handleIngest, handleIngestBody.
  rewrite (post_method r Hm). split; [|split].
  - destruct (Body r) as [err|ts cpu rps]; simpl.
    + split; [eauto|reflexivity].
    + unfold trySend.
      destruct (len (chan_buf (metricsCh w)) <? chan_cap (metricsCh w))%Z;
        simpl; (split; [discriminate|intros [err H]; discriminate]).
  - intros Hb Hr. rewrite Hb. simpl. rewrite trySend_room by exact Hr.
    simpl. split; reflexivity.
  - intros ts cpu rps Hb Hr. rewrite Hb. simpl.
    rewrite trySend_room by exact Hr. simpl. split; [reflexivity|].
    unfold stamp. simpl. destruct ts as [[|t|t]|]; reflexivity.
Qed.

Lemma ingest_decoding_witness :
  let r := {| Method := "POST"; Body := JSONFields None None None |} in
  let bad := {| Method := "POST"; Body := BadJSON "unexpected EOF" |} in
  (StatusCode (fst (handleIngest r Example.fresh)) = 202%Z
   /\ chan_buf (metricsCh (snd (handleIngest r Example.fresh)))
      = (chan_buf (metricsCh Example.fresh)
           ++ [{| Timestamp := unixNow Example.fresh; CPU := 0; RPS := 0 |}])%list)
  /\ StatusCode (fst (handleIngest bad Example.fresh)) = 400%Z.
Proof.
  intros r bad. split.
  - refine (proj1 (proj2 (ingest_decoding r Example.fresh _)) _ _);
      vm_compute; reflexivity.
  - refine (proj2 (proj1 (ingest_decoding bad Example.fresh _)) _);
      [reflexivity|]. exists "unexpected EOF". reflexivity.
Defined.

(** ** C7: /analyze *)

(** C7.  For every request to /analyze: a method other than GET gets 405;
    a GET whose read of the store fails gets 503; a GET that finds no
    value under the key gets 204 with an empty body; and a GET that finds
    a value gets 200 with that value as the JSON body.  After an iteration
    whose SET was served, a GET on a quiet store returns what that
    iteration marshalled. *)
Theorem analyze_responses (r : Request) (w : World) :
  let resp := fst (handleAnalyze r w) in
  let store := others (nextTurn w) (rdb w) in
  (Method r <> "GET" ->
     resp = httpError "GET only" 405 /\ StatusCode resp = 405%Z)
  /\ (Method r = "GET" -> forall e, fault (nextTurn w) = Some e ->
      StatusCode resp = 503%Z /\ Written resp = "redis error: " ++ e ++ nl)
  /\ (Method r = "GET" -> fault (nextTurn w) = None ->
      last_analysis store = None ->
      StatusCode resp = 204%Z /\ Written resp = "")
  /\ (Method r = "GET" -> fault (nextTurn w) = None ->
      forall val, last_analysis store = Some val ->
      StatusCode resp = 200%Z /\ Written resp = val
      /\ Header resp = [("Content-Type", "application/json")]).
Proof.
  intros resp store. unfold resp, store, handleAnalyze, Get, roundTrip, GET.
  split; [|split; [|split]].
  - intro H. apply String.eqb_neq in H. rewrite H. simpl. split; reflexivity.
  - intros H e He. rewrite H, He. simpl. split; reflexivity.
  - intros H Hf Hl. rewrite H, Hf. simpl. rewrite Hl. split; reflexivity.
  - intros H Hf val Hl. rewrite H, Hf. simpl. rewrite Hl. repeat split.
Qed.

Lemma analyze_responses_witness :
  let w := snd (Example.iteration 0 Example.sample Example.fresh) in
  (StatusCode (fst (handleAnalyze Example.get Example.fresh)) = 204%Z
   /\ Written (fst (handleAnalyze Example.get Example.fresh)) = "")
  /\ (StatusCode (fst (handleAnalyze Example.get w)) = 200%Z
      /\ Written (fst (handleAnalyze Example.get w))
         = jsonBytes Json.Marshal
             (analysisOf Strconv.ParseFloat Strconv.FormatFloat
                Example.sample Example.fresh)
      /\ Header (fst (handleAnalyze Example.get w))
         = [("Content-Type", "application/json")])
  /\ (StatusCode (fst (handleAnalyze (Example.post 12 120) w)) = 405%Z)
  /\ (StatusCode (fst (handleAnalyze Example.get Example.pushFails)) = 503%Z).
Proof.
  intro w. split; [|split; [|split]].
  - refine (proj1 (proj2 (proj2
      (analyze_responses Example.get Example.fresh))) _ _ _);
      vm_compute; reflexivity.
  - refine (proj2 (proj2 (proj2
      (analyze_responses Example.get w))) _ _ _ _);
      vm_compute; reflexivity.
  - refine (proj2 (proj1
      (analyze_responses (Example.post 12 120) w) _)).
    discriminate.
  - refine (proj1 (proj1 (proj2
      (analyze_responses Example.get Example.pushFails)) _ "EOF" _));
      vm_compute; reflexivity.
Defined.

(** ** The scenario of the README

    POST [{"cpu":12,"rps":120}] is accepted; once the worker has processed
    it, GET /analyze returns the stored [Analysis], whose [lastRps] is 120
    and [lastCpu] is 12. *)
Lemma end_to_end_scenario :
  let accepted := handleIngest (Example.post 12 120) Example.fresh in
  let w := Example.worker 0 1 (snd accepted) in
  let a := analysisOf Strconv.ParseFloat Strconv.FormatFloat
             Example.sample Example.fresh in
  StatusCode (fst accepted) = 202%Z
  /\ Written (fst accepted) = acceptedBody
  /\ StatusCode (fst (handleAnalyze Example.get w)) = 200%Z
  /\ Some (Written (fst (handleAnalyze Example.get w))) = Json.Marshal a
  /\ LastRPS a = 120%float /\ LastCPU a = 12%float /\ Count a = 1%Z.
Proof. vm_compute. repeat split. Qed.

(** * More of the handlers and the worker *)

(** ** /ingest over a sequence of requests *)

Lemma handleIngest_cases r w :
  (Method r <> "POST"
   /\ handleIngest r w
      = (httpError "POST only" 405, with_prom (observeIngestLatency (prom w)) w))
  \/ (Method r = "POST" /\ exists err,
        Body r = BadJSON err
        /\ handleIngest r w
           = (httpError ("bad json: " ++ err) 400,
              with_prom (observeIngestLatency (prom w)) w))
  \/ (Method r = "POST" /\ exists m,
        Decode (Body r) zeroMetric = inl m
        /\ (chan_cap (metricsCh w) <= len (chan_buf (metricsCh w)))%Z
        /\ handleIngest r w
           = (httpError "overloaded" 503,
              with_prom (observeIngestLatency (prom w)) w))
  \/ (Method r = "POST" /\ exists m,
        Decode (Body r) zeroMetric = inl m
        /\ (len (chan_buf (metricsCh w)) < chan_cap (metricsCh w))%Z
        /\ handleIngest r w
           = ({| StatusCode := 202;
                 Header := [("Content-Type", "application/json")];
                 Written := acceptedBody |},
              with_prom (observeIngestLatency (incIngestTotal (prom w)))
                (with_metricsCh
                   {| chan_cap := chan_cap (metricsCh w);
                      chan_buf := (chan_buf (metricsCh w)
                                     ++ [stamp (unixNow w) m])%list |} w))).
Proof.
  unfold handleIngest, handleIngestBody.
  destruct (String.eqb_spec (Method r) "POST") as [Hm|Hm]; simpl.
  - right. destruct (Body r) as [err|ts cpu rps] eqn:Hb; simpl.
    + left. split; [exact Hm|]. exists err. split; reflexivity.
    + right. unfold trySend.
      destruct (len (chan_buf (metricsCh w)) <? chan_cap (metricsCh w))%Z eqn:E.
      * right. split; [exact Hm|]. eexists. split; [reflexivity|].
        split; [now apply Z.ltb_lt|reflexivity].
      * left. split; [exact Hm|]. eexists. split; [reflexivity|].
        split; [now apply Z.ltb_ge|reflexivity].
  - left. split; [exact Hm|reflexivity].
Qed.

(** X1.  Which reply /ingest gives is decided by three tests in this
    order: 405 exactly when the method is not POST; 400 exactly when it is
    POST and the body does not decode; 503 exactly when it is POST, the
    body decodes and the channel has no room; 202 exactly when it is POST,
    the body decodes and the channel has room.  Every reply other than 202
    changes nothing but the latency histogram, which gets one observation. *)
Theorem ingest_status_cases (r : Request) (w : World) :
  let resp := fst (handleIngest r w) in
  let w' := snd (handleIngest r w) in
  let room := (len (chan_buf (metricsCh w)) < chan_cap (metricsCh w))%Z in
  (StatusCode resp = 405%Z <-> Method r <> "POST")
  /\ (StatusCode resp = 400%Z <->
      Method r = "POST" /\ exists err, Body r = BadJSON err)
  /\ (StatusCode resp = 503%Z <->
      Method r = "POST" /\ (exists m, Decode (Body r) zeroMetric = inl m)
      /\ ~ room)
  /\ (StatusCode resp = 202%Z <->
      Method r = "POST" /\ (exists m, Decode (Body r) zeroMetric = inl m)
      /\ room)
  /\ (StatusCode resp <> 202%Z ->
      w' = with_prom (observeIngestLatency (prom w)) w).
Proof.
  intros resp w' room. unfold resp, w', room.
  destruct (handleIngest_cases r w)
    as [[Hm E]|[[Hm [err [Hb E]]]|[[Hm [m [Hd [Hr E]]]]|[Hm [m [Hd [Hr E]]]]]]];
    rewrite E; simpl.
  - split; [tauto|]. split; [split; [discriminate|tauto]|].
    split; [split; [discriminate|tauto]|].
    split; [split; [discriminate|tauto]|reflexivity].
  - assert (Hn : forall m, Decode (Body r) zeroMetric <> inl m)
      by (intro m; rewrite Hb; discriminate).
    split; [split; [discriminate|tauto]|].
    split; [split; [eauto|reflexivity]|].
    split; [split; [discriminate|intros (_ & [m Hd] & _); now destruct (Hn m)]|].
    split; [split; [discriminate|intros (_ & [m Hd] & _); now destruct (Hn m)]|].
    reflexivity.
  - assert (Hn : forall err, Body r <> BadJSON err)
      by (intros err Hb; rewrite Hb in Hd; discriminate).
    split; [split; [discriminate|tauto]|].
    split; [split; [discriminate|intros (_ & err & Hb); now destruct (Hn err)]|].
    split; [split; [intros _; split; [exact Hm|split; [eauto|lia]]|reflexivity]|].
    split; [split; [discriminate|intros (_ & _ & Hroom); lia]|reflexivity].
  - assert (Hn : forall err, Body r <> BadJSON err)
      by (intros err Hb; rewrite Hb in Hd; discriminate).
    split; [split; [discriminate|tauto]|].
    split; [split; [discriminate|intros (_ & err & Hb); now destruct (Hn err)]|].
    split; [split; [discriminate|intros (_ & _ & Hroom); lia]|].
    split; [split; [intros _; split; [exact Hm|split; [eauto|lia]]|reflexivity]|].
    intro H. now destruct H.
Qed.

Lemma len_app {A : Type} (l1 l2 : list A) : len (l1 ++ l2) = (len l1 + len l2)%Z.
Proof. unfold len. rewrite length_app. lia. Qed.

(** One request: what it adds to the channel and to the collectors. *)
Lemma handleIngest_effect r w :
  let resp := fst (handleIngest r w) in
  let w' := snd (handleIngest r w) in
  let added := if (StatusCode resp =? StatusAccepted)%Z
               then match offered (unixNow w) r with
                    | Some m => [m]
                    | None => []
                    end
               else [] in
  metricsCh w'
  = {| chan_cap := chan_cap (metricsCh w);
       chan_buf := (chan_buf (metricsCh w) ++ added)%list |}
  /\ len added = accepted [resp]
  /\ prom w'
     = {| ingestTotal := ingestTotal (prom w) + accepted [resp];
          ingestLatency := ingestLatency (prom w) + 1;
          currentRollingAvg := currentRollingAvg (prom w);
          anomalyTotal := anomalyTotal (prom w);
          anomalyRate := anomalyRate (prom w) |}
  /\ rdb w' = rdb w /\ network w' = network w
  /\ logged w' = logged w /\ unixNow w' = unixNow w.
Proof.
  cbv zeta. unfold offered, accepted.
  destruct (handleIngest_cases r w)
    as [[Hm E]|[[Hm [err [Hb E]]]|[[Hm [m [Hd [Hr E]]]]|[Hm [m [Hd [Hr E]]]]]]];
    rewrite E; simpl.
  - change (len []) with 0%Z. rewrite app_nil_r, Z.add_0_r.
    destruct (metricsCh w). repeat split.
  - change (len []) with 0%Z. rewrite app_nil_r, Z.add_0_r.
    destruct (metricsCh w). repeat split.
  - change (len []) with 0%Z. rewrite app_nil_r, Z.add_0_r.
    destruct (metricsCh w). repeat split.
  - rewrite Hm, Hd. simpl. repeat split.
Qed.

(** The first sequence is a prefix of a run of requests. *)
Lemma ingestAll_cons r rest w :
  ingestAll (r :: rest) w
  = (fst (handleIngest r w) :: fst (ingestAll rest (snd (handleIngest r w))),
     snd (ingestAll rest (snd (handleIngest r w)))).
Proof.
  simpl. destruct (handleIngest r w) as [resp w1]. simpl.
  now destruct (ingestAll rest w1).
Qed.

Lemma accepted_cons resp resps :
  accepted (resp :: resps) = (accepted [resp] + accepted resps)%Z.
Proof.
  unfold accepted, len. cbn [filter].
  destruct (StatusCode resp =? StatusAccepted)%Z; cbn [List.length]; lia.
Qed.

(** X2.  Over any sequence of /ingest requests: one reply each; the
    latency histogram gets one observation for every request, whatever the
    reply; [ingest_requests_total] grows by the number of 202 replies; the
    channel gets that many samples, appended behind those already
    buffered; and the capacity, the three anomaly collectors, the store,
    the turns ahead and the log are as before. *)
Theorem ingest_accounting (rs : list Request) (w : World) :
  let resps := fst (ingestAll rs w) in
  let w' := snd (ingestAll rs w) in
  List.length resps = List.length rs
  /\ ingestLatency (prom w') = (ingestLatency (prom w) + len rs)%Z
  /\ ingestTotal (prom w') = (ingestTotal (prom w) + accepted resps)%Z
  /\ (exists added,
        chan_buf (metricsCh w') = (chan_buf (metricsCh w) ++ added)%list
        /\ len added = accepted resps)
  /\ chan_cap (metricsCh w') = chan_cap (metricsCh w)
  /\ currentRollingAvg (prom w') = currentRollingAvg (prom w)
  /\ anomalyTotal (prom w') = anomalyTotal (prom w)
  /\ anomalyRate (prom w') = anomalyRate (prom w)
  /\ rdb w' = rdb w /\ network w' = network w /\ logged w' = logged w.
Proof.
  revert w. induction rs as [|r rest IH]; intro w.
  - simpl. unfold accepted, len. simpl. rewrite !Z.add_0_r.
    repeat split. exists []. now rewrite app_nil_r.
  - rewrite ingestAll_cons. cbn [fst snd].
    destruct (handleIngest_effect r w)
      as (Hch & Hadd & Hp & Hr & Hn & Hl & _).
    destruct (IH (snd (handleIngest r w)))
      as (I1 & I2 & I3 & (added & I4 & I5) & I6 & I7 & I8 & I9 & I10 & I11 & I12).
    rewrite accepted_cons.
    rewrite I2, I3, I4, I6, I7, I8, I9, I10, I11, I12, Hch, Hp, Hr, Hn, Hl.
    cbn [chan_buf chan_cap ingestTotal ingestLatency currentRollingAvg
         anomalyTotal anomalyRate].
    split; [simpl; now rewrite I1|].
    split; [unfold len; simpl List.length; lia|].
    split; [lia|].
    split; [|repeat split].
    eexists. rewrite <- app_assoc. split; [reflexivity|].
    rewrite len_app. lia.
Qed.

(** ** Invariants of the channel *)

Section ChannelFacts.

Variable ParseFloat : string -> option float.
Variable FormatFloat : float -> string.
Variable Marshal : Analysis -> option string.

Lemma recv_some w m w' :
  recv w = Some (m, w') ->
  chan_buf (metricsCh w) = m :: chan_buf (metricsCh w')
  /\ chan_cap (metricsCh w') = chan_cap (metricsCh w).
Proof.
  unfold recv. destruct (chan_buf (metricsCh w)) as [|m' rest];
    [discriminate|]. intro H. inversion H. subst. split; reflexivity.
Qed.

(** The worker only ever takes from the channel. *)
Lemma worker_channel id n : forall w,
  chan_cap (metricsCh (worker ParseFloat FormatFloat Marshal id n w))
  = chan_cap (metricsCh w)
  /\ exists k, chan_buf (metricsCh (worker ParseFloat FormatFloat Marshal id n w))
               = skipn k (chan_buf (metricsCh w)).
Proof.
  induction n as [|n IH]; intro w; simpl.
  - split; [reflexivity|]. now exists 0%nat.
  - destruct (recv w) as [[m w1]|] eqn:E.
    + destruct (recv_some w m w1 E) as [Hb Hc].
      destruct (IH (snd (iteration ParseFloat FormatFloat Marshal id m w1)))
        as [Ic [k Ik]].
      rewrite iteration_metricsCh in Ic, Ik.
      split; [congruence|]. exists (S k). rewrite Ik, Hb. reflexivity.
    + split; [reflexivity|]. now exists 0%nat.
Qed.

Lemma handleAnalyze_keeps r w :
  metricsCh (snd (handleAnalyze r w)) = metricsCh w
  /\ prom (snd (handleAnalyze r w)) = prom w
  /\ logged (snd (handleAnalyze r w)) = logged w
  /\ unixNow (snd (handleAnalyze r w)) = unixNow w.
Proof.
  unfold handleAnalyze, Get, roundTrip.
  destruct (negb (Method r =? "GET")); [repeat split|].
  destruct (fault (nextTurn w)); simpl; [repeat split|].
  destruct (last_analysis (others (nextTurn w) (rdb w))); repeat split.
Qed.

Lemma len_skipn_le {A : Type} k (l : list A) : (len (skipn k l) <= len l)%Z.
Proof. unfold len. rewrite length_skipn. lia. Qed.

Lemma act_channel (w : World) (a : Action) :
  (len (chan_buf (metricsCh w)) <= chan_cap (metricsCh w))%Z ->
  chan_cap (metricsCh (act ParseFloat FormatFloat Marshal w a))
  = chan_cap (metricsCh w)
  /\ (len (chan_buf (metricsCh (act ParseFloat FormatFloat Marshal w a)))
      <= chan_cap (metricsCh w))%Z.
Proof.
  intro H. destruct a as [r|r|id n|t]; simpl.
  - destruct (handleIngest_cases r w)
      as [[Hm E]|[[Hm [err [Hb E]]]|[[Hm [m [Hd [Hr E]]]]|[Hm [m [Hd [Hr E]]]]]]];
      rewrite E; simpl; try (split; [reflexivity|exact H]).
    split; [reflexivity|]. rewrite len_app. unfold len at 2. simpl. lia.
  - destruct (handleAnalyze_keeps r w) as [E _]. rewrite E. now split.
  - destruct (worker_channel id n w) as [Hc [k Hk]]. rewrite Hc, Hk.
    split; [reflexivity|]. pose proof (len_skipn_le k (chan_buf (metricsCh w))).
    lia.
  - now split.
Qed.

(** X3.  From [NewService] on, whatever requests reach the two handlers,
    however long a worker runs in between and however the clock moves, the
    channel has capacity 10000 and never holds more than 10000 samples. *)
Theorem channel_never_overflows (actions : list Action)
    (r : Redis) (net : list Turn) (now : Z) :
  let w := run ParseFloat FormatFloat Marshal actions (NewService r net now) in
  chan_cap (metricsCh w) = 10000%Z
  /\ (len (chan_buf (metricsCh w)) <= 10000)%Z.
Proof.
  intro w. unfold w, run. clear w.
  assert (G : forall w0,
             chan_cap (metricsCh w0) = 10000%Z ->
             (len (chan_buf (metricsCh w0)) <= 10000)%Z ->
             chan_cap (metricsCh (fold_left (act ParseFloat FormatFloat Marshal)
                                    actions w0)) = 10000%Z
             /\ (len (chan_buf (metricsCh
                        (fold_left (act ParseFloat FormatFloat Marshal)
                           actions w0))) <= 10000)%Z).
  { induction actions as [|a rest IH]; intros w0 Hc Hl; simpl.
    - now split.
    - assert (Hl' : (len (chan_buf (metricsCh w0)) <= chan_cap (metricsCh w0))%Z)
        by lia.
      destruct (act_channel w0 a Hl') as [A1 A2]. apply IH; lia. }
  apply G; [reflexivity|]. unfold len. simpl. lia.
Qed.

End ChannelFacts.

(** ** The worker and the channel: first in, first out *)

Lemma blind_ret {A : Type} (a : A) : channelBlind (ret a).
Proof. intros ch w. reflexivity. Qed.

Lemma blind_continue {A : Type} : channelBlind (@continue A).
Proof. intros ch w. reflexivity. Qed.

Lemma blind_bind {A B : Type} (c : M A) (k : A -> M B) :
  channelBlind c -> (forall a, channelBlind (k a)) -> channelBlind (bind c k).
Proof.
  intros Hc Hk ch w. unfold bind. rewrite Hc.
  destruct (c w) as [[a|] w1]; simpl; [apply Hk|reflexivity].
Qed.

Lemma blind_roundTrip {R : Type} (cmd : Redis -> R * Redis) :
  channelBlind (lift (roundTrip cmd)).
Proof.
  intros ch w. unfold lift, roundTrip.
  change (nextTurn (with_metricsCh ch w)) with (nextTurn w).
  destruct (fault (nextTurn w)); reflexivity.
Qed.

Lemma blind_logPrintf line : channelBlind (logPrintf line).
Proof. intros ch w. reflexivity. Qed.

Lemma blind_updateProm f : channelBlind (updateProm f).
Proof. intros ch w. reflexivity. Qed.

Lemma blind_timeNowUnix : channelBlind timeNowUnix.
Proof. intros ch w. reflexivity. Qed.

Lemma blind_orContinue {R : Type} id what (res : R + error) :
  channelBlind (orContinue id what res).
Proof.
  destruct res; [apply blind_ret|].
  apply blind_bind; [apply blind_logPrintf|intro; apply blind_continue].
Qed.

Section WorkerFacts.

Variable ParseFloat : string -> option float.
Variable FormatFloat : float -> string.
Variable Marshal : Analysis -> option string.

Lemma blind_iteration id m :
  channelBlind (iteration ParseFloat FormatFloat Marshal id m).
Proof.
  unfold iteration, readWindow, persist, observe.
  repeat (first [ apply blind_bind; [|intro]
                | apply blind_roundTrip | apply blind_orContinue
                | apply blind_timeNowUnix | apply blind_updateProm
                | apply blind_logPrintf | apply blind_ret
                | match goal with
                  | |- channelBlind (match ?x with _ => _ end) => destruct x
                  | |- channelBlind (if ?x then _ else _) => destruct x
                  end ]).
Qed.

Lemma with_metricsCh_twice c c' w :
  with_metricsCh c (with_metricsCh c' w) = with_metricsCh c w.
Proof. reflexivity. Qed.

Lemma with_metricsCh_same w :
  with_metricsCh {| chan_cap := chan_cap (metricsCh w);
                    chan_buf := chan_buf (metricsCh w) |} w = w.
Proof. destruct w as [[c b] r n t p l]. reflexivity. Qed.

Lemma processAll_blind id ms : forall ch w,
  processAll ParseFloat FormatFloat Marshal id ms (with_metricsCh ch w)
  = with_metricsCh ch (processAll ParseFloat FormatFloat Marshal id ms w).
Proof.
  unfold processAll. induction ms as [|m rest IH]; intros ch w; simpl.
  - reflexivity.
  - rewrite blind_iteration. simpl. apply IH.
Qed.

Lemma processAll_metricsCh id ms : forall w,
  metricsCh (processAll ParseFloat FormatFloat Marshal id ms w) = metricsCh w.
Proof.
  unfold processAll. induction ms as [|m rest IH]; intro w; simpl.
  - reflexivity.
  - now rewrite IH, iteration_metricsCh.
Qed.

(** X4.  A worker that runs for at most [n] samples processes the [n]
    oldest buffered samples, oldest first, each with one pass through the
    body of the loop, and leaves the others in the channel in their
    order. *)
Theorem worker_fifo (id : Z) (n : nat) (w : World) :
  let buf := chan_buf (metricsCh w) in
  worker ParseFloat FormatFloat Marshal id n w
  = processAll ParseFloat FormatFloat Marshal id (firstn n buf) (received n w)
  /\ chan_buf (metricsCh (worker ParseFloat FormatFloat Marshal id n w))
     = skipn n buf.
Proof.
  cbv zeta.
  assert (G : forall n w,
    worker ParseFloat FormatFloat Marshal id n w
    = processAll ParseFloat FormatFloat Marshal id
        (firstn n (chan_buf (metricsCh w))) (received n w)).
  { clear n w. induction n as [|n IH]; intro w.
    - simpl. unfold received. simpl. now rewrite with_metricsCh_same.
    - simpl. unfold recv.
      destruct (chan_buf (metricsCh w)) as [|m rest] eqn:E.
      + simpl. unfold received. rewrite E. simpl. rewrite <- E.
        now rewrite with_metricsCh_same.
      + rewrite IH. rewrite iteration_metricsCh. cbn [metricsCh with_metricsCh chan_buf].
        unfold received. rewrite E, iteration_metricsCh.
        cbn [metricsCh with_metricsCh chan_buf chan_cap skipn].
        rewrite !blind_iteration. cbn [snd].
        rewrite with_metricsCh_twice.
        unfold processAll at 2. cbn [fold_left firstn].
        rewrite blind_iteration. cbn [snd].
        fold (processAll ParseFloat FormatFloat Marshal id (firstn n rest)
                (with_metricsCh
                   {| chan_cap := chan_cap (metricsCh w);
                      chan_buf := skipn n rest |}
                   (snd (iteration ParseFloat FormatFloat Marshal id m w)))).
        reflexivity. }
  split; [apply G|].
  rewrite G, processAll_metricsCh. reflexivity.
Qed.

End WorkerFacts.

(** ** The worker on a quiet store *)

Lemma firstn_cons_firstn {A : Type} n (a : A) l :
  firstn n (a :: firstn n l) = firstn n (a :: l).
Proof.
  destruct n as [|n]; [reflexivity|]. rewrite !firstn_cons. f_equal.
  rewrite firstn_firstn. f_equal. lia.
Qed.

Lemma firstn_app_firstn {A : Type} n (l1 l2 : list A) :
  firstn n (l1 ++ firstn n l2) = firstn n (l1 ++ l2).
Proof.
  rewrite !firstn_app, firstn_firstn. do 2 f_equal. lia.
Qed.

(** With fewer than two valid samples there is no signal. *)
Lemma engine_no_signal nums m now :
  (len nums <= 1)%Z ->
  ZScore (engine nums m now) = 0%float /\ IsAnomaly (engine nums m now) = false.
Proof.
  intro H. unfold engine.
  destruct (analyse_flag nums (sumOf nums) m now) as [Hf _].
  rewrite Hf, analyse_z. fold (engine nums m now). rewrite engine_count.
  unfold zOf. replace (1 <? len nums)%Z with false
    by (symmetry; apply Z.ltb_ge; exact H).
  split; reflexivity.
Qed.

Section QuietStore.

Variable ParseFloat : string -> option float.
Variable FormatFloat : float -> string.
Variable Marshal : Analysis -> option string.

Lemma quiet_nextTurn w : network w = [] -> nextTurn w = quiet.
Proof. intro H. unfold nextTurn. now rewrite H. Qed.

Lemma quiet_served {R : Type} (cmd : Redis -> R * Redis) w :
  network w = [] -> served cmd w = with_rdb (snd (cmd (rdb w))) [] w.
Proof. intro H. unfold served. now rewrite (quiet_nextTurn w H), H. Qed.

(** With no other client and no fault, the snapshot is the window with the
    new sample in front, cut to 50 entries. *)
Lemma quiet_snapshot m w :
  network w = [] ->
  snapshot FormatFloat m w
  = firstn 50 (FormatFloat (RPS m) :: rps_window (rdb w))
  /\ afterRead FormatFloat m w
     = with_rdb {| rps_window := firstn 50 (FormatFloat (RPS m)
                                              :: rps_window (rdb w));
                   last_analysis := last_analysis (rdb w) |} [] w.
Proof.
  intro H. unfold snapshot, afterRead, afterTrim, afterPush.
  rewrite (quiet_served (LPUSH (FormatFloat (RPS m))) w H).
  rewrite quiet_served by reflexivity.
  rewrite quiet_served by reflexivity.
  cbn [rdb with_rdb LRANGE LTRIM LPUSH snd rps_window last_analysis].
  rewrite !lrange_window, firstn_firstn. split; reflexivity.
Qed.

Lemma quiet_iteration id m w :
  network w = [] ->
  let values := firstn 50 (FormatFloat (RPS m) :: rps_window (rdb w)) in
  let a := analyseWindow ParseFloat values m (unixNow w) in
  iteration ParseFloat FormatFloat Marshal id m w
  = (Some tt,
     with_prom (gauges a (prom w))
       (with_rdb {| rps_window := values;
                    last_analysis := Some (jsonBytes Marshal a) |} [] w)).
Proof.
  intros H values a.
  destruct (quiet_snapshot m w H) as [Hs Hw].
  assert (Q : forall w0, network w0 = [] -> fault (nextTurn w0) = None)
    by (intros w0 H0; now rewrite (quiet_nextTurn w0 H0)).
  assert (H1 := Q w H).
  assert (H2 : fault (nextTurn (afterPush FormatFloat m w)) = None)
    by (apply Q; unfold afterPush; now rewrite quiet_served).
  assert (H3 : fault (nextTurn (afterTrim FormatFloat m w)) = None)
    by (apply Q; unfold afterTrim; now rewrite quiet_served
          by (unfold afterPush; now rewrite quiet_served)).
  rewrite (iteration_after_read ParseFloat FormatFloat Marshal id m w
             (readWindow_ok FormatFloat id m w H1 H2 H3)).
  unfold analysisOf. rewrite Hs, Hw.
  rewrite Q by reflexivity. rewrite quiet_served by reflexivity.
  reflexivity.
Qed.

Lemma processTimed_snoc id tms t m w :
  processTimed ParseFloat FormatFloat Marshal id (tms ++ [(t, m)]) w
  = snd (iteration ParseFloat FormatFloat Marshal id m
           (elapse t (processTimed ParseFloat FormatFloat Marshal id tms w))).
Proof. unfold processTimed. now rewrite fold_left_app. Qed.

Lemma quiet_iteration_at id t m w :
  network w = [] ->
  let values := firstn 50 (FormatFloat (RPS m) :: rps_window (rdb w)) in
  let a := analyseWindow ParseFloat values m t in
  iteration ParseFloat FormatFloat Marshal id m (elapse t w)
  = (Some tt,
     with_prom (gauges a (prom w))
       (with_rdb {| rps_window := values;
                    last_analysis := Some (jsonBytes Marshal a) |} []
          (elapse t w))).
Proof. intro H. exact (quiet_iteration id m (elapse t w) H). Qed.

Lemma quiet_processTimed id tms : forall w,
  network w = [] ->
  network (processTimed ParseFloat FormatFloat Marshal id tms w) = []
  /\ logged (processTimed ParseFloat FormatFloat Marshal id tms w) = logged w.
Proof.
  unfold processTimed. induction tms as [|[t m] rest IH]; intros w H.
  - split; [exact H|reflexivity].
  - cbn [fold_left fst snd]. rewrite (quiet_iteration_at id t m w H).
    cbn [snd].
    destruct (IH (with_prom
                    (gauges (analyseWindow ParseFloat
                               (firstn 50 (FormatFloat (RPS m)
                                             :: rps_window (rdb w)))
                               m t) (prom w))
                    (with_rdb {| rps_window := firstn 50 (FormatFloat (RPS m)
                                                 :: rps_window (rdb w));
                                 last_analysis := Some (jsonBytes Marshal
                                   (analyseWindow ParseFloat
                                      (firstn 50 (FormatFloat (RPS m)
                                                    :: rps_window (rdb w)))
                                      m t)) |} [] (elapse t w))) eq_refl)
      as (I1 & I2).
    rewrite I1, I2. split; reflexivity.
Qed.

(** X5.  With a store that serves every round trip and no other client,
    after a worker has processed the samples of [tms], each at its own
    time, and then [m] at the time [t]: the window is the formatted RPS
    values newest first, in front of what the window held, cut to 50
    entries; the stored value is what [json.Marshal] gives for the analysis
    of that window for the last sample [m], computed at [t], and is empty
    when [json.Marshal] fails on it; nothing was logged. *)
Theorem quiet_window_most_recent (id : Z) (tms : list (Z * Metric)) (t : Z)
    (m : Metric) (w : World) :
  network w = [] ->
  let w' := processTimed ParseFloat FormatFloat Marshal id
              (tms ++ [(t, m)]) w in
  let pushes := map (fun tm => FormatFloat (RPS (snd tm)))
                    (tms ++ [(t, m)]) in
  let a := analyseWindow ParseFloat (rps_window (rdb w')) m t in
  rps_window (rdb w') = firstn 50 (rev pushes ++ rps_window (rdb w))
  /\ (len (rps_window (rdb w')) <= windowSize)%Z
  /\ (forall b, Marshal a = Some b -> last_analysis (rdb w') = Some b)
  /\ (Marshal a = None -> last_analysis (rdb w') = Some "")
  /\ ComputedAt a = t
  /\ logged w' = logged w.
Proof.
  intros H w' pushes a.
  assert (W : rps_window (rdb w') = firstn 50 (rev pushes ++ rps_window (rdb w))).
  { unfold w', pushes. clear w' pushes a. revert t m.
    induction tms as [|[t0 m0] rest IH] using rev_ind; intros t m.
    - cbn [app]. unfold processTimed. cbn [fold_left fst snd].
      now rewrite (quiet_iteration_at id t m w H).
    - rewrite processTimed_snoc.
      destruct (quiet_processTimed id (rest ++ [(t0, m0)]) w H) as (Hn & _).
      rewrite (quiet_iteration_at id t m _ Hn).
      cbn [snd rdb with_prom with_rdb rps_window elapse].
      rewrite (IH t0 m0), (map_app _ (rest ++ [(t0, m0)]) [(t, m)]),
        rev_app_distr.
      cbn [map rev app snd]. now rewrite firstn_cons_firstn. }
  assert (S : last_analysis (rdb w') = Some (jsonBytes Marshal a)
              /\ logged w' = logged w).
  { unfold a. clear a W. unfold w'. clear w'. rewrite processTimed_snoc.
    destruct (quiet_processTimed id tms w H) as (Hn & Hl).
    rewrite (quiet_iteration_at id t m _ Hn).
    cbn [snd rdb with_prom with_rdb rps_window last_analysis logged elapse].
    split; [reflexivity|exact Hl]. }
  destruct S as [S L]. unfold jsonBytes in S.
  split; [exact W|]. split.
  - rewrite W. unfold len. rewrite length_firstn. change windowSize with 50%Z. lia.
  - split; [intros b Hb; now rewrite Hb in S|].
    split; [intro Hn; now rewrite Hn in S|].
    split; [|exact L].
    unfold a, analyseWindow. destruct (parseValues _ _) as [nums sum].
    unfold analyse. now destruct (meanStddev nums sum).
Qed.

(** X6.  With such a store, and an RPS that [FormatFloat] and
    [ParseFloat] take back to itself, the worker finds its own sample first
    in the window it reads: [Count] is at least 1, and on a store whose
    window was empty the analysis has [Count] 1, z-score 0 and no
    anomaly. *)
Theorem reads_own_sample (id : Z) (m : Metric) (w : World) :
  network w = [] ->
  ParseFloat (FormatFloat (RPS m)) = Some (RPS m) ->
  let a := analysisOf ParseFloat FormatFloat m w in
  hd_error (parsed ParseFloat (snapshot FormatFloat m w)) = Some (RPS m)
  /\ (1 <= Count a)%Z
  /\ (rps_window (rdb w) = [] ->
      Count a = 1%Z /\ ZScore a = 0%float /\ IsAnomaly a = false).
Proof.
  intros H Hp a. unfold a, analysisOf.
  destruct (quiet_snapshot m w H) as [Hs _]. rewrite Hs.
  rewrite analyseWindow_engine.
  change (firstn 50 (FormatFloat (RPS m) :: rps_window (rdb w)))
    with (FormatFloat (RPS m) :: firstn 49 (rps_window (rdb w))).
  cbn [parsed]. rewrite Hp. split; [reflexivity|]. split.
  - rewrite engine_count. unfold len. simpl. lia.
  - intro He. rewrite He. rewrite firstn_nil. rewrite engine_count.
    split; [reflexivity|]. apply engine_no_signal. unfold len. simpl. lia.
Qed.

End QuietStore.

(** ** What is stored and what /analyze returns *)

Lemma analyze_quiet r w :
  Method r = "GET" -> network w = [] ->
  fst (handleAnalyze r w)
  = match last_analysis (rdb w) with
    | Some val => {| StatusCode := 200;
                     Header := [("Content-Type", "application/json")];
                     Written := val |}
    | None => {| StatusCode := 204; Header := []; Written := "" |}
    end.
Proof.
  intros Hm Hn. unfold handleAnalyze, Get, roundTrip.
  rewrite Hm. unfold nextTurn. rewrite Hn. simpl.
  now destruct (last_analysis (rdb w)).
Qed.

Section Stored.

Variable ParseFloat : string -> option float.
Variable FormatFloat : float -> string.
Variable Marshal : Analysis -> option string.

(** X7.  When [json.Marshal] fails on the analysis (line 156 drops the
    error), the worker stores the empty value, logs nothing, and GET
    /analyze then replies 200 with an empty body. *)
Theorem unencodable_analysis_stored_empty (id : Z) (m : Metric) (w : World)
    (r : Request) :
  network w = [] ->
  Marshal (analysisOf ParseFloat FormatFloat m w) = None ->
  Method r = "GET" ->
  let w' := snd (iteration ParseFloat FormatFloat Marshal id m w) in
  last_analysis (rdb w') = Some ""
  /\ logged w' = logged w
  /\ StatusCode (fst (handleAnalyze r w')) = 200%Z
  /\ Written (fst (handleAnalyze r w')) = "".
Proof.
  intros Hn Hm Hg w'. unfold w'.
  destruct (quiet_snapshot FormatFloat m w Hn) as [Hs _].
  unfold analysisOf in Hm. rewrite Hs in Hm.
  rewrite (quiet_iteration ParseFloat FormatFloat Marshal id m w Hn).
  cbn [snd]. rewrite analyze_quiet by (exact Hg || reflexivity).
  cbn [rdb with_prom with_rdb last_analysis logged].
  unfold jsonBytes. rewrite Hm. repeat split.
Qed.

(** X8.  One sample through the service with a quiet store: POST /ingest
    with a body that decodes to [m] is accepted into the empty channel; at
    a later time [t1] a worker takes it and empties the channel; when
    [json.Marshal] succeeds on the analysis, a GET /analyze at a still
    later time [t2] replies 200 with content type [application/json] and
    the JSON that [json.Marshal] wrote, in which [lastRps] and [lastCpu]
    are those of [m], [lastTimestamp] is the timestamp of [m], or the time
    of the POST when that is 0, and [computedAt] is [t1], the time of the
    worker. *)
Theorem ingest_process_analyze (id : Z) (post get : Request) (m : Metric)
    (w : World) (t1 t2 : Z) (b : string) :
  Method post = "POST" ->
  Decode (Body post) zeroMetric = inl m ->
  chan_buf (metricsCh w) = [] ->
  (0 < chan_cap (metricsCh w))%Z ->
  network w = [] ->
  Method get = "GET" ->
  let sample := stamp (unixNow w) m in
  let values := firstn 50 (FormatFloat (RPS m) :: rps_window (rdb w)) in
  let a := analyseWindow ParseFloat values sample t1 in
  Json.Marshal a = Some b ->
  let w1 := snd (handleIngest post w) in
  let w2 := worker ParseFloat FormatFloat Json.Marshal id 1 (elapse t1 w1) in
  StatusCode (fst (handleIngest post w)) = 202%Z
  /\ chan_buf (metricsCh w2) = []
  /\ fst (handleAnalyze get (elapse t2 w2))
     = {| StatusCode := 200;
          Header := [("Content-Type", "application/json")];
          Written := b |}
  /\ (exists rps, Json.encodeFloat (RPS m) = Some rps
                  /\ carries b "lastRps" rps)
  /\ (exists cpu, Json.encodeFloat (CPU m) = Some cpu
                  /\ carries b "lastCpu" cpu)
  /\ carries b "lastTimestamp"
       (Json.encodeInt (if (Timestamp m =? 0)%Z then unixNow w
                        else Timestamp m))
  /\ carries b "computedAt" (Json.encodeInt t1).
Proof.
  intros Hp Hd Hb Hc Hn Hg sample values a Ha w1 w2.
  assert (Hroom : (len (chan_buf (metricsCh w)) < chan_cap (metricsCh w))%Z)
    by (rewrite Hb; unfold len; simpl; lia).
  assert (Hrec : LastRPS a = RPS m /\ LastCPU a = CPU m
                 /\ LastTs a = (if (Timestamp m =? 0)%Z then unixNow w
                                else Timestamp m)
                 /\ ComputedAt a = t1).
  { unfold a, analyseWindow. destruct (parseValues _ _) as [nums sum].
    unfold analyse. destruct (meanStddev nums sum).
    cbn [LastRPS LastCPU LastTs ComputedAt]. unfold sample, stamp.
    destruct (Timestamp m =? 0)%Z; repeat split. }
  destruct Hrec as (R1 & R2 & R3 & R4).
  destruct (Marshal_carries a b Ha) as (_ & C1 & C2 & C3 & _ & C4).
  rewrite R1 in C1. rewrite R2 in C2. rewrite R3 in C3. rewrite R4 in C4.
  destruct (handleIngest_cases post w)
    as [[Hm E]|[[Hm [err [Hbad E]]]|[[Hm [m' [Hd' [Hr E]]]]|[Hm [m' [Hd' [Hr E]]]]]]].
  - contradiction.
  - rewrite Hbad in Hd. discriminate.
  - lia.
  - rewrite Hd in Hd'. inversion Hd'. subst m'.
    unfold w2, w1. rewrite E. cbn [fst snd StatusCode].
    split; [reflexivity|].
    rewrite Hb.
    cbn [app worker recv metricsCh with_prom with_metricsCh chan_buf chan_cap
         elapse].
    rewrite iteration_metricsCh. cbn [metricsCh with_prom with_metricsCh chan_buf].
    split; [reflexivity|].
    rewrite blind_iteration. cbn [snd].
    set (w0 := with_prom (observeIngestLatency (incIngestTotal (prom w)))
                 (with_metricsCh
                    {| chan_cap := chan_cap (metricsCh w);
                       chan_buf := [stamp (unixNow w) m] |} w)).
    assert (Hn0 : network w0 = []) by exact Hn.
    rewrite (quiet_iteration ParseFloat FormatFloat Json.Marshal id
               (stamp (unixNow w) m) (elapse t1 w0) Hn0).
    cbn [snd]. rewrite analyze_quiet by (exact Hg || reflexivity).
    cbn [rdb with_prom with_rdb with_metricsCh last_analysis elapse unixNow].
    assert (Hrps : RPS (stamp (unixNow w) m) = RPS m)
      by (unfold stamp; now destruct (Timestamp m =? 0)%Z).
    rewrite Hrps. change (rdb w0) with (rdb w).
    fold values. fold sample. fold a. unfold jsonBytes. rewrite Ha.
    split; [reflexivity|].
    split; [exact C1|]. split; [exact C2|]. split; [exact C3|exact C4].
Qed.

End Stored.

(** ** What the worker does to the collectors, the log and the network *)

Section WorkerEffects.

Variable ParseFloat : string -> option float.
Variable FormatFloat : float -> string.
Variable Marshal : Analysis -> option string.

Lemma network_served {R : Type} (cmd : Redis -> R * Redis) w :
  network (served cmd w) = tl (network w).
Proof. reflexivity. Qed.

Lemma workerLog_line id what e : logLineOf id (workerLog id what e).
Proof. unfold logLineOf, workerLog. eexists. reflexivity. Qed.

(** One iteration: at most four round trips, at most one line in the log,
    and on the collectors either nothing or the update of lines 161-167. *)
Lemma iteration_effect id m w :
  let w' := snd (iteration ParseFloat FormatFloat Marshal id m w) in
  (exists k, (k <= 4)%nat /\ network w' = skipn k (network w))
  /\ (logged w' = logged w
      \/ exists line, logLineOf id line /\ logged w' = (logged w ++ [line])%list)
  /\ (prom w' = prom w
      \/ exists a, prom w' = gauges a (prom w))
  /\ unixNow w' = unixNow w.
Proof.
  cbv zeta.
  destruct (fault (nextTurn w)) eqn:H1.
  { rewrite (iteration_aborted ParseFloat FormatFloat Marshal id m w _
               (readWindow_push_fails FormatFloat id m w _ H1)).
    cbn [snd]. split; [exists 1%nat; split; [lia|reflexivity]|].
    split; [right; eexists; split; [apply workerLog_line|reflexivity]|].
    split; [left; reflexivity|reflexivity]. }
  destruct (fault (nextTurn (afterPush FormatFloat m w))) eqn:H2.
  { rewrite (iteration_aborted ParseFloat FormatFloat Marshal id m w _
               (readWindow_trim_fails FormatFloat id m w _ H1 H2)).
    cbn [snd]. split.
    - exists 2%nat. split; [lia|]. cbn [say failed with_logged with_rdb network].
      unfold afterPush. rewrite network_served. now destruct (network w).
    - split; [right; eexists; split; [apply workerLog_line|reflexivity]|].
      split; [left; reflexivity|reflexivity]. }
  destruct (fault (nextTurn (afterTrim FormatFloat m w))) eqn:H3.
  { rewrite (iteration_aborted ParseFloat FormatFloat Marshal id m w _
               (readWindow_read_fails FormatFloat id m w _ H1 H2 H3)).
    cbn [snd]. split.
    - exists 3%nat. split; [lia|]. cbn [say failed with_logged with_rdb network].
      unfold afterTrim, afterPush. rewrite !network_served.
      now destruct (network w) as [|t1 [|t2 l]].
    - split; [right; eexists; split; [apply workerLog_line|reflexivity]|].
      split; [left; reflexivity|reflexivity]. }
  rewrite (iteration_after_read ParseFloat FormatFloat Marshal id m w
             (readWindow_ok FormatFloat id m w H1 H2 H3)).
  cbn [snd]. split.
  - exists 4%nat. split; [lia|].
    destruct (fault (nextTurn (afterRead FormatFloat m w)));
      cbn [say failed served with_prom with_logged with_rdb network];
      unfold afterRead, afterTrim, afterPush; rewrite !network_served;
      now destruct (network w) as [|t1 [|t2 [|t3 l]]].
  - split.
    + destruct (fault (nextTurn (afterRead FormatFloat m w)));
        [right; eexists; split; [apply workerLog_line|reflexivity]
        |left; reflexivity].
    + split; [right; eexists; reflexivity|].
      now destruct (fault (nextTurn (afterRead FormatFloat m w))).
Qed.

Lemma gauges_effect a p :
  ingestTotal (gauges a p) = ingestTotal p
  /\ ingestLatency (gauges a p) = ingestLatency p
  /\ (anomalyTotal p <= anomalyTotal (gauges a p) <= anomalyTotal p + 1)%Z.
Proof. unfold gauges. destruct (IsAnomaly a); simpl; repeat split; lia. Qed.

Lemma skipn_skipn_add {A : Type} (j k : nat) (l : list A) :
  skipn j (skipn k l) = skipn (k + j) l.
Proof.
  revert l. induction k as [|k IH]; intro l; [reflexivity|].
  destruct l as [|x l]; [now rewrite !skipn_nil|]. simpl. apply IH.
Qed.

(** X9.  What a worker running for at most [n] samples can touch: the two
    ingest collectors never; [anomaly_total] only upwards, by at most [n];
    the log only by appending at most [n] lines, each starting with
    [[worker id] redis]; the store through at most [4 * n] round trips; the
    clock not at all. *)
Theorem worker_footprint (id : Z) (n : nat) (w : World) :
  let w' := worker ParseFloat FormatFloat Marshal id n w in
  ingestTotal (prom w') = ingestTotal (prom w)
  /\ ingestLatency (prom w') = ingestLatency (prom w)
  /\ (anomalyTotal (prom w) <= anomalyTotal (prom w')
      <= anomalyTotal (prom w) + Z.of_nat n)%Z
  /\ (exists lines,
        logged w' = (logged w ++ lines)%list
        /\ (List.length lines <= n)%nat
        /\ Forall (logLineOf id) lines)
  /\ (exists k, (k <= 4 * n)%nat /\ network w' = skipn k (network w))
  /\ unixNow w' = unixNow w.
Proof.
  cbv zeta. revert w. induction n as [|n IH]; intro w.
  - simpl. split; [reflexivity|]. split; [reflexivity|]. split; [lia|].
    split; [exists []; rewrite app_nil_r; split; [reflexivity|split; [simpl; lia|constructor]]|].
    split; [exists 0%nat; split; [lia|reflexivity]|reflexivity].
  - cbn [worker]. destruct (recv w) as [[m w1]|] eqn:E.
    + assert (Hw1 : prom w1 = prom w /\ logged w1 = logged w
                    /\ network w1 = network w /\ unixNow w1 = unixNow w).
      { unfold recv in E. destruct (chan_buf (metricsCh w)); [discriminate|].
        inversion E. repeat split. }
      destruct Hw1 as (Hp & Hl & Hn & Hu).
      destruct (iteration_effect id m w1) as ([k [Hk Hnet]] & Hlog & Hprom & Hnow).
      destruct (IH (snd (iteration ParseFloat FormatFloat Marshal id m w1)))
        as (I1 & I2 & I3 & [lines [I4 [I5 I6]]] & [k' [I7 I8]] & I9).
      rewrite I1, I2, I9, Hnow, Hu.
      assert (P : ingestTotal (prom (snd (iteration ParseFloat FormatFloat
                                            Marshal id m w1)))
                  = ingestTotal (prom w)
                  /\ ingestLatency (prom (snd (iteration ParseFloat FormatFloat
                                                 Marshal id m w1)))
                     = ingestLatency (prom w)
                  /\ (anomalyTotal (prom w)
                      <= anomalyTotal (prom (snd (iteration ParseFloat
                                                    FormatFloat Marshal id m w1)))
                      <= anomalyTotal (prom w) + 1)%Z).
      { destruct Hprom as [Hq|[a Hq]]; rewrite Hq, Hp.
        - repeat split; lia.
        - apply gauges_effect. }
      destruct P as (P1 & P2 & P3).
      split; [exact P1|]. split; [exact P2|]. split; [lia|].
      split.
      * destruct Hlog as [Hq|[line [Hline Hq]]]; rewrite I4, Hq, Hl.
        -- exists lines. split; [reflexivity|split; [lia|exact I6]].
        -- exists (line :: lines). rewrite <- app_assoc.
           split; [reflexivity|split; [simpl; lia|now constructor]].
      * split; [|reflexivity].
        exists (k + k')%nat. split; [lia|].
        now rewrite I8, Hnet, Hn, skipn_skipn_add.
    + split; [reflexivity|]. split; [reflexivity|]. split; [lia|].
      split; [exists []; rewrite app_nil_r; split; [reflexivity|split; [simpl; lia|constructor]]|].
      split; [exists 0%nat; split; [lia|reflexivity]|reflexivity].
Qed.

End WorkerEffects.

(** ** /analyze only reads *)

(** X10.  /analyze never touches the channel, the collectors or the
    log.  A request that is not a GET changes nothing at all; a GET makes
    one round trip that leaves the store as the other clients left it.  The
    reply is 200, 204, 405 or 503. *)
Theorem analyze_read_only (r : Request) (w : World) :
  let resp := fst (handleAnalyze r w) in
  let w' := snd (handleAnalyze r w) in
  metricsCh w' = metricsCh w /\ prom w' = prom w /\ logged w' = logged w
  /\ (Method r <> "GET" -> w' = w)
  /\ (Method r = "GET" ->
      rdb w' = others (nextTurn w) (rdb w) /\ network w' = tl (network w))
  /\ (StatusCode resp = 200%Z \/ StatusCode resp = 204%Z
      \/ StatusCode resp = 405%Z \/ StatusCode resp = 503%Z).
Proof.
  cbv zeta. unfold handleAnalyze, Get, roundTrip, GET.
  destruct (String.eqb_spec (Method r) "GET") as [Hm|Hm]; simpl.
  - destruct (fault (nextTurn w)); simpl.
    + repeat split; tauto.
    + destruct (last_analysis (others (nextTurn w) (rdb w))); simpl;
        repeat split; tauto.
  - repeat split; tauto.
Qed.

(** ** More on the statistics *)

Lemma Prim2SF_two : Prim2SF 2%float = S754_finite false 4503599627370496 (-51).
Proof. reflexivity. Qed.

Lemma Prim2SF_minus_two :
  Prim2SF (-2)%float = S754_finite true 4503599627370496 (-51).
Proof. reflexivity. Qed.

Lemma Prim2SF_nan (z : float) : is_nan z = true -> Prim2SF z = S754_nan.
Proof. intro H. unfold Prim2SF. now rewrite H. Qed.

Lemma SFltb_abs (p : positive) (k : Z) (x : spec_float) :
  SFltb (S754_finite false p k) (SFabs x)
  = SFltb (S754_finite false p k) x || SFltb x (S754_finite true p k).
Proof.
  destruct x as [s|s| |s m e];
    [destruct s; reflexivity|destruct s; reflexivity|reflexivity|].
  destruct s; unfold SFabs, SFltb, SFcompare.
  - rewrite (Z.compare_antisym k e).
    destruct (Z.compare k e) eqn:Ez; simpl; try reflexivity.
    rewrite (Pos.compare_cont_antisym m p Eq). simpl.
    now destruct (Pos.compare_cont Eq p m).
  - destruct (Z.compare k e); try reflexivity.
    now destruct (Pos.compare_cont Eq p m).
Qed.

(** [math.Abs(z) > 2] is [z > 2 || z < -2]. *)
Lemma isAnomalyOf_two_sided (z : float) :
  isAnomalyOf z = ((2 <? z) || (z <? -2))%float.
Proof.
  unfold isAnomalyOf, zThreshold.
  rewrite !ltb_spec, abs_spec, Prim2SF_two, Prim2SF_minus_two.
  apply SFltb_abs.
Qed.

(** X11.  The flag is two-sided and strict: [IsAnomaly] is true exactly
    when the z-score is above 2 or below -2; a NaN z-score gives false; and
    the flag is raised only with at least two parsed values, a standard
    deviation above 0 and a z-score that is a number. *)
Theorem anomaly_is_two_sided_and_strict (ParseFloat : string -> option float)
    (values : list string) (m : Metric) (now : Z) :
  let a := analyseWindow ParseFloat values m now in
  IsAnomaly a = ((2 <? ZScore a) || (ZScore a <? -2))%float
  /\ (is_nan (ZScore a) = true -> IsAnomaly a = false)
  /\ (IsAnomaly a = true ->
      (2 <= Count a)%Z /\ (0 <? StdDev a)%float = true
      /\ is_nan (ZScore a) = false).
Proof.
  cbv zeta. rewrite analyseWindow_engine.
  set (nums := parsed ParseFloat values). unfold engine.
  destruct (analyse_flag nums (sumOf nums) m now) as [Hf _].
  rewrite Hf, isAnomalyOf_two_sided.
  assert (N : forall z, is_nan z = true -> ((2 <? z) || (z <? -2))%float = false).
  { intros z Hz. rewrite !ltb_spec, (Prim2SF_nan z Hz). reflexivity. }
  split; [reflexivity|]. split; [apply N|].
  intro H. rewrite analyse_z in *. unfold zOf in *.
  destruct (1 <? Count (analyse nums (sumOf nums) m now))%Z eqn:Hc;
    [|simpl in H; discriminate].
  destruct (0 <? StdDev (analyse nums (sumOf nums) m now))%float eqn:Hs;
    [|simpl in H; discriminate].
  simpl in *. apply Z.ltb_lt in Hc. split; [lia|]. split; [reflexivity|].
  destruct (is_nan _) eqn:Hz; [|reflexivity].
  rewrite (N _ Hz) in H. discriminate.
Qed.

Lemma sqrt_not_negative (x : float) : (PrimFloat.sqrt x <? 0)%float = false.
Proof.
  rewrite ltb_spec, sqrt_spec, Prim2SF_zero. unfold SF64sqrt, SFsqrt.
  destruct (Prim2SF x) as [s|s| |s mx ex];
    [destruct s; reflexivity|destruct s; reflexivity|reflexivity|].
  destruct s; [reflexivity|].
  destruct (SFsqrt_core_binary prec emax (Zpos mx) ex) as [[mz ez] lz].
  unfold binary_round_aux.
  destruct (shr_fexp prec emax mz ez lz) as [mrs' e'].
  destruct (shr_fexp prec emax _ e' loc_Exact) as [mrs'' e''].
  destruct (shr_m mrs''); try reflexivity.
  now destruct (e'' <=? emax - prec)%Z.
Qed.

(** X12.  Whatever the window holds, the standard deviation of the
    analysis is never below 0 (it is a [math.Sqrt], a zero or a NaN); with
    no parsed value it and the mean are 0; [WindowSize] is always 50. *)
Theorem stddev_never_negative (ParseFloat : string -> option float)
    (values : list string) (m : Metric) (now : Z) :
  let a := analyseWindow ParseFloat values m now in
  (StdDev a <? 0)%float = false
  /\ (Count a = 0%Z -> StdDev a = 0%float /\ RollingAvg a = 0%float)
  /\ WindowSize a = 50%Z.
Proof.
  cbv zeta. unfold analyseWindow. destruct (parseValues _ _) as [nums sum].
  unfold analyse, meanStddev.
  destruct (0 <? len nums)%Z eqn:E; cbn [StdDev Count RollingAvg WindowSize].
  - split; [apply sqrt_not_negative|]. apply Z.ltb_lt in E.
    split; [intro H; lia|reflexivity].
  - repeat split.
Qed.

(** ** The pool of workers *)

Section PoolFacts.

Variable ParseFloat : string -> option float.
Variable FormatFloat : float -> string.
Variable Marshal : Analysis -> option string.

Lemma roundTrip_served {R : Type} (cmd : Redis -> R * Redis) w :
  fault (nextTurn w) = None ->
  roundTrip cmd w = (inl (fst (cmd (others (nextTurn w) (rdb w)))), served cmd w).
Proof. intro H. unfold roundTrip. now rewrite H. Qed.

Lemma roundTrip_failed {R : Type} (cmd : Redis -> R * Redis) w e :
  fault (nextTurn w) = Some e ->
  roundTrip cmd w = (inr (errorString e), failed w).
Proof. intro H. unfold roundTrip. now rewrite H. Qed.

(** [solo], one operation at a time. *)
Lemma solo_Idle id fuel w :
  solo ParseFloat FormatFloat Marshal id fuel Idle w = (Idle, w).
Proof. destruct fuel; reflexivity. Qed.

Lemma solo_Logging id fuel line next w :
  solo ParseFloat FormatFloat Marshal id (S fuel) (Logging line next) w
  = solo ParseFloat FormatFloat Marshal id fuel next (say line w).
Proof. reflexivity. Qed.

Lemma solo_Pushing id fuel m w :
  solo ParseFloat FormatFloat Marshal id (S fuel) (Pushing m) w
  = solo ParseFloat FormatFloat Marshal id fuel
      (afterStore id "LPUSH" (fst (roundTrip (LPUSH (FormatFloat (RPS m))) w))
         (fun _ => Trimming m) Idle)
      (snd (roundTrip (LPUSH (FormatFloat (RPS m))) w)).
Proof.
  cbn [solo]. unfold stepWorker.
  now destruct (roundTrip (LPUSH (FormatFloat (RPS m))) w).
Qed.

Lemma solo_Trimming id fuel m w :
  solo ParseFloat FormatFloat Marshal id (S fuel) (Trimming m) w
  = solo ParseFloat FormatFloat Marshal id fuel
      (afterStore id "LTRIM" (fst (roundTrip (LTRIM 0 (windowSize - 1)) w))
         (fun _ => Reading m) Idle)
      (snd (roundTrip (LTRIM 0 (windowSize - 1)) w)).
Proof.
  cbn [solo]. unfold stepWorker.
  now destruct (roundTrip (LTRIM 0 (windowSize - 1)) w).
Qed.

Lemma solo_Reading id fuel m w :
  solo ParseFloat FormatFloat Marshal id (S fuel) (Reading m) w
  = solo ParseFloat FormatFloat Marshal id fuel
      (afterStore id "LRANGE" (fst (roundTrip (LRANGE 0 (windowSize - 1)) w))
         (fun values =>
            Persisting
              (analyseWindow ParseFloat values m
                 (unixNow (snd (roundTrip (LRANGE 0 (windowSize - 1)) w)))))
         Idle)
      (snd (roundTrip (LRANGE 0 (windowSize - 1)) w)).
Proof.
  cbn [solo]. unfold stepWorker.
  now destruct (roundTrip (LRANGE 0 (windowSize - 1)) w).
Qed.

Lemma solo_Persisting id fuel anal w :
  solo ParseFloat FormatFloat Marshal id (S fuel) (Persisting anal) w
  = solo ParseFloat FormatFloat Marshal id fuel
      (afterStore id "SET last_analysis"
         (fst (roundTrip (SET (jsonBytes Marshal anal)) w))
         (fun _ => SettingAvg (RollingAvg anal) (IsAnomaly anal))
         (SettingAvg (RollingAvg anal) (IsAnomaly anal)))
      (snd (roundTrip (SET (jsonBytes Marshal anal)) w)).
Proof.
  cbn [solo]. unfold stepWorker.
  now destruct (roundTrip (SET (jsonBytes Marshal anal)) w).
Qed.

Lemma solo_finish id fuel a w :
  solo ParseFloat FormatFloat Marshal id (S (S (S fuel)))
    (SettingAvg (RollingAvg a) (IsAnomaly a)) w
  = (Idle, with_prom (gauges a (prom w)) w).
Proof.
  unfold gauges. destruct (IsAnomaly a).
  - cbn [solo stepWorker]. destruct fuel; reflexivity.
  - cbn [solo stepWorker]. reflexivity.
Qed.

(** X13.  The worker taken one operation at a time and left alone does to
    the world what the body of the loop does for the sample it holds, and
    is back at the head of the loop after at most eight operations: the
    two descriptions of [worker] agree. *)
Theorem solo_worker_is_iteration (id : Z) (m : Metric) (w : World) :
  solo ParseFloat FormatFloat Marshal id 8 (Pushing m) w
  = (Idle, snd (iteration ParseFloat FormatFloat Marshal id m w)).
Proof.
  rewrite solo_Pushing.
  destruct (fault (nextTurn w)) eqn:H1.
  { rewrite (iteration_aborted ParseFloat FormatFloat Marshal id m w _
               (readWindow_push_fails FormatFloat id m w _ H1)).
    rewrite (roundTrip_failed _ w _ H1). cbn [fst snd afterStore].
    now rewrite solo_Logging, solo_Idle. }
  rewrite (roundTrip_served _ w H1). cbn [fst snd afterStore].
  fold (afterPush FormatFloat m w). rewrite solo_Trimming.
  destruct (fault (nextTurn (afterPush FormatFloat m w))) eqn:H2.
  { rewrite (iteration_aborted ParseFloat FormatFloat Marshal id m w _
               (readWindow_trim_fails FormatFloat id m w _ H1 H2)).
    rewrite (roundTrip_failed _ _ _ H2). cbn [fst snd afterStore].
    now rewrite solo_Logging, solo_Idle. }
  rewrite (roundTrip_served _ _ H2). cbn [fst snd afterStore].
  fold (afterTrim FormatFloat m w). rewrite solo_Reading.
  destruct (fault (nextTurn (afterTrim FormatFloat m w))) eqn:H3.
  { rewrite (iteration_aborted ParseFloat FormatFloat Marshal id m w _
               (readWindow_read_fails FormatFloat id m w _ H1 H2 H3)).
    rewrite (roundTrip_failed _ _ _ H3). cbn [fst snd afterStore].
    now rewrite solo_Logging, solo_Idle. }
  rewrite (iteration_after_read ParseFloat FormatFloat Marshal id m w
             (readWindow_ok FormatFloat id m w H1 H2 H3)).
  rewrite (roundTrip_served _ _ H3). cbn [fst snd afterStore].
  fold (afterRead FormatFloat m w).
  change (fst (LRANGE 0 (windowSize - 1)
                 (others (nextTurn (afterTrim FormatFloat m w))
                    (rdb (afterTrim FormatFloat m w)))))
    with (snapshot FormatFloat m w).
  change (unixNow (afterRead FormatFloat m w)) with (unixNow w).
  fold (analysisOf ParseFloat FormatFloat m w).
  rewrite solo_Persisting.
  destruct (fault (nextTurn (afterRead FormatFloat m w))) eqn:H4.
  - rewrite (roundTrip_failed _ _ _ H4). cbn [fst snd afterStore].
    now rewrite solo_Logging, solo_finish.
  - rewrite (roundTrip_served _ _ H4). cbn [fst snd afterStore].
    now rewrite solo_finish.
Qed.

End PoolFacts.

Section PoolRuns.

Variable ParseFloat : string -> option float.
Variable FormatFloat : float -> string.
Variable Marshal : Analysis -> option string.

(** Only the receive of line 95 touches the channel. *)
Lemma stepWorker_channel id pc w pc' w' :
  stepWorker ParseFloat FormatFloat Marshal id pc w = Some (pc', w') ->
  (pc = Idle /\ exists m, pc' = Pushing m
     /\ chan_buf (metricsCh w) = m :: chan_buf (metricsCh w')
     /\ chan_cap (metricsCh w') = chan_cap (metricsCh w))
  \/ (pc <> Idle /\ metricsCh w' = metricsCh w).
Proof.
  destruct pc; cbn [stepWorker].
  - destruct (recv w) as [[m0 w0]|] eqn:E; [|discriminate].
    intro H. inversion H. subst. left. split; [reflexivity|].
    exists m0. split; [reflexivity|]. now apply recv_some.
  - unfold roundTrip. destruct (fault (nextTurn w)); intro H; inversion H;
      right; split; (discriminate || reflexivity).
  - unfold roundTrip. destruct (fault (nextTurn w)); intro H; inversion H;
      right; split; (discriminate || reflexivity).
  - unfold roundTrip. destruct (fault (nextTurn w)); intro H; inversion H;
      right; split; (discriminate || reflexivity).
  - unfold roundTrip. destruct (fault (nextTurn w)); intro H; inversion H;
      right; split; (discriminate || reflexivity).
  - intro H. inversion H. right. split; (discriminate || reflexivity).
  - intro H. inversion H. right. split; (discriminate || reflexivity).
  - intro H. inversion H. right. split; (discriminate || reflexivity).
  - intro H. inversion H. right. split; (discriminate || reflexivity).
Qed.

Lemma setNth_length {A : Type} i (x : A) l :
  List.length (setNth i x l) = List.length l.
Proof.
  revert i. induction l as [|y l IH]; intro i; [reflexivity|].
  destruct i; simpl; [reflexivity|]. now rewrite IH.
Qed.

Lemma stepPool_channel e pcs w :
  let '(pcs', w', took) := stepPool ParseFloat FormatFloat Marshal e pcs w in
  List.length pcs' = List.length pcs
  /\ chan_cap (metricsCh w') = chan_cap (metricsCh w)
  /\ chan_buf (metricsCh w) = (map snd took ++ chan_buf (metricsCh w'))%list
  /\ Forall (fun e => (fst e < List.length pcs)%nat) took.
Proof.
  unfold stepPool. destruct e as [i|t]; [|repeat split; constructor].
  destruct (nth_error pcs i) as [pc|] eqn:En; [|repeat split; constructor].
  destruct (stepWorker ParseFloat FormatFloat Marshal (Z.of_nat i) pc w)
    as [[pc' w']|] eqn:Es; [|repeat split; constructor].
  rewrite setNth_length.
  destruct (stepWorker_channel _ _ _ _ _ Es) as [[Hpc [m [Hpc' [Hb Hc]]]]|[Hpc Hm]].
  - subst pc pc'. split; [reflexivity|]. split; [exact Hc|].
    split; [exact Hb|]. constructor; [|constructor]. simpl.
    apply nth_error_Some. congruence.
  - rewrite Hm. split; [reflexivity|]. split; [reflexivity|].
    destruct pc; try (now destruct Hpc); destruct pc'; split; (reflexivity || constructor).
Qed.

Lemma runPool_channel (schedule : list Event) (pcs : list Pc) (w : World) :
  let '(pcs', w', took) :=
    runPool ParseFloat FormatFloat Marshal schedule pcs w in
  List.length pcs' = List.length pcs
  /\ chan_cap (metricsCh w') = chan_cap (metricsCh w)
  /\ chan_buf (metricsCh w) = (map snd took ++ chan_buf (metricsCh w'))%list
  /\ Forall (fun e => (fst e < List.length pcs)%nat) took.
Proof.
  revert pcs w. induction schedule as [|i rest IH]; intros pcs w.
  - simpl. repeat split. constructor.
  - cbn [runPool]. pose proof (stepPool_channel i pcs w) as S1.
    destruct (stepPool ParseFloat FormatFloat Marshal i pcs w)
      as [[pcs1 w1] took1].
    pose proof (IH pcs1 w1) as S2.
    destruct (runPool ParseFloat FormatFloat Marshal rest pcs1 w1)
      as [[pcs2 w2] took2].
    destruct S1 as (A1 & A2 & A3 & A4). destruct S2 as (B1 & B2 & B3 & B4).
    split; [congruence|]. split; [congruence|]. split.
    + rewrite map_app, <- app_assoc, <- B3. exact A3.
    + apply Forall_app. split; [exact A4|]. now rewrite <- A1.
Qed.

(** X14.  However the [n] workers that [StartWorkers] starts are
    scheduled, and however the clock moves meanwhile, the samples leave the
    channel in the order they were buffered, each received by one of the
    workers 0 .. n-1 and by no other; what has not been received is still
    buffered, and the capacity is unchanged. *)
Theorem pool_hands_out_in_order (n : nat) (schedule : list Event)
    (w : World) :
  let '(pcs', w', took) :=
    runPool ParseFloat FormatFloat Marshal schedule (StartWorkers n) w in
  List.length pcs' = n
  /\ chan_cap (metricsCh w') = chan_cap (metricsCh w)
  /\ chan_buf (metricsCh w) = (map snd took ++ chan_buf (metricsCh w'))%list
  /\ Forall (fun e => (fst e < n)%nat) took.
Proof.
  pose proof (runPool_channel schedule (StartWorkers n) w) as H.
  destruct (runPool ParseFloat FormatFloat Marshal schedule (StartWorkers n) w)
    as [[pcs' w'] took].
  unfold StartWorkers in H. rewrite repeat_length in H. exact H.
Qed.

Lemma quiet_roundTrip {R : Type} (cmd : Redis -> R * Redis) w :
  network w = [] ->
  roundTrip cmd w
  = (inl (fst (cmd (rdb w))), with_rdb (snd (cmd (rdb w))) [] w).
Proof.
  intro H. unfold roundTrip, served, nextTurn. rewrite H. reflexivity.
Qed.

(** X15.  Two workers, as [main] starts them, on a quiet store with two
    samples buffered, taking turns operation by operation: each pushes
    before either trims or reads, so both read the same window, with the
    second sample in front of the first; both analyses count the same
    entries of it, at least two when both samples parse.  Worker 0 reads at
    the time [t1], worker 1 at [t2], and worker 0 persists last: the stored
    value is what [json.Marshal] gives for the analysis of the first
    sample, computed at [t1] (empty when [json.Marshal] fails on it),
    although the window starts with the second sample. *)
Theorem interleaved_workers_share_a_window (m1 m2 : Metric)
    (queue : list Metric) (w : World) (t1 t2 : Z) :
  network w = [] ->
  chan_buf (metricsCh w) = m1 :: m2 :: queue ->
  let values := firstn 50 (FormatFloat (RPS m2) :: FormatFloat (RPS m1)
                             :: rps_window (rdb w)) in
  let a1 := analyseWindow ParseFloat values m1 t1 in
  let a2 := analyseWindow ParseFloat values m2 t2 in
  let '(pcs', w', took) :=
    runPool ParseFloat FormatFloat Marshal
            [Run 0; Run 1; Run 0; Run 1; Run 0; Run 1;
             Tick t1; Run 0; Tick t2; Run 1; Run 1; Run 0]
            (StartWorkers 2) w in
  took = [(0%nat, m1); (1%nat, m2)]
  /\ pcs' = [SettingAvg (RollingAvg a1) (IsAnomaly a1);
             SettingAvg (RollingAvg a2) (IsAnomaly a2)]
  /\ rps_window (rdb w') = values
  /\ Count a1 = len (parsed ParseFloat values)
  /\ Count a2 = Count a1
  /\ (parses ParseFloat (FormatFloat (RPS m1)) = true ->
      parses ParseFloat (FormatFloat (RPS m2)) = true ->
      (2 <= Count a1)%Z)
  /\ (forall b, Marshal a1 = Some b -> last_analysis (rdb w') = Some b)
  /\ (Marshal a1 = None -> last_analysis (rdb w') = Some "")
  /\ LastRPS a1 = RPS m1 /\ ComputedAt a1 = t1
  /\ chan_buf (metricsCh w') = queue.
Proof.
  intros Hn Hb values a1 a2.
  assert (C : Count a1 = len (parsed ParseFloat values)
              /\ Count a2 = Count a1
              /\ (parses ParseFloat (FormatFloat (RPS m1)) = true ->
                  parses ParseFloat (FormatFloat (RPS m2)) = true ->
                  (2 <= Count a1)%Z)
              /\ LastRPS a1 = RPS m1 /\ ComputedAt a1 = t1).
  { unfold a1, a2. rewrite !analyseWindow_engine, !engine_count.
    split; [reflexivity|]. split; [reflexivity|]. split.
    - unfold parses, values.
      change (firstn 50 (FormatFloat (RPS m2) :: FormatFloat (RPS m1)
                           :: rps_window (rdb w)))
        with (FormatFloat (RPS m2) :: FormatFloat (RPS m1)
                :: firstn 48 (rps_window (rdb w))).
      cbn [parsed].
      destruct (ParseFloat (FormatFloat (RPS m1))); [|discriminate].
      destruct (ParseFloat (FormatFloat (RPS m2))); [|discriminate].
      intros _ _. unfold len. cbn [List.length]. lia.
    - unfold engine, analyse. now destruct (meanStddev _ _). }
  destruct C as (C1 & C2 & C3 & C4 & C5).
  assert (G : let '(pcs', w', took) :=
                runPool ParseFloat FormatFloat Marshal
                  [Run 0; Run 1; Run 0; Run 1; Run 0; Run 1;
                   Tick t1; Run 0; Tick t2; Run 1; Run 1; Run 0]
                  (StartWorkers 2) w in
              took = [(0%nat, m1); (1%nat, m2)]
              /\ pcs' = [SettingAvg (RollingAvg a1) (IsAnomaly a1);
                         SettingAvg (RollingAvg a2) (IsAnomaly a2)]
              /\ rps_window (rdb w') = values
              /\ last_analysis (rdb w') = Some (jsonBytes Marshal a1)
              /\ chan_buf (metricsCh w') = queue).
  { clear C1 C2 C3 C4 C5.
    destruct w as [[cap buf] [window last] net now p l].
    cbn in Hn, Hb. subst net buf. subst a1 a2 values.
    cbv [StartWorkers repeat runPool stepPool stepWorker recv nth_error setNth
         roundTrip nextTurn served failed with_rdb with_metricsCh hd tl
         network fault quiet others rdb metricsCh chan_buf chan_cap unixNow
         prom logged afterStore LPUSH LTRIM LRANGE SET app fst snd
         rps_window last_analysis elapse].
    rewrite !lrange_window.
    rewrite !firstn_firstn. change (Init.Nat.min 50 50) with 50%nat.
    repeat split. }
  destruct (runPool _ _ _ _ _ _) as [[pcs' w'] took].
  destruct G as (G1 & G2 & G3 & G4 & G5). unfold jsonBytes in G4.
  split; [exact G1|]. split; [exact G2|]. split; [exact G3|].
  split; [exact C1|]. split; [exact C2|]. split; [exact C3|].
  split; [intros b Hb'; now rewrite Hb' in G4|].
  split; [intro Hn'; now rewrite Hn' in G4|].
  split; [exact C4|]. split; [exact C5|exact G5].
Qed.

End PoolRuns.

(** ** The theorems above at concrete worlds *)

Lemma quiet_window_most_recent_witness :
  network Example.fresh = []
  /\ rps_window
       (rdb (processTimed Strconv.ParseFloat Strconv.FormatFloat Json.Marshal
               0 [(Example.now, Example.sample);
                  (Example.now + 7, Scenario.second)]%Z Example.fresh))
     = ["130"; "120"].
Proof.
  split; [reflexivity|].
  refine (eq_trans
            (proj1 (quiet_window_most_recent Strconv.ParseFloat
                      Strconv.FormatFloat Json.Marshal 0
                      [(Example.now, Example.sample)] (Example.now + 7)%Z
                      Scenario.second Example.fresh _)) _);
    vm_compute; reflexivity.
Defined.

Lemma reads_own_sample_witness :
  network Example.fresh = []
  /\ Strconv.ParseFloat (Strconv.FormatFloat (RPS Example.sample))
     = Some (RPS Example.sample)
  /\ Count (analysisOf Strconv.ParseFloat Strconv.FormatFloat Example.sample
              Example.fresh) = 1%Z.
Proof.
  split; [reflexivity|]. split; [vm_compute; reflexivity|].
  refine (proj1 (proj2 (proj2 (reads_own_sample Strconv.ParseFloat
                                 Strconv.FormatFloat 0 Example.sample
                                 Example.fresh _ _)) _));
    vm_compute; reflexivity.
Defined.

Lemma unencodable_analysis_stored_empty_witness :
  network Scenario.afterHuge = []
  /\ Json.Marshal (analysisOf Strconv.ParseFloat Strconv.FormatFloat
                     Scenario.hugeAgain Scenario.afterHuge) = None
  /\ Written (fst (handleAnalyze Example.get
                     (snd (Example.iteration 0 Scenario.hugeAgain
                             Scenario.afterHuge)))) = "".
Proof.
  split; [vm_compute; reflexivity|]. split; [vm_compute; reflexivity|].
  refine (proj2 (proj2 (proj2
            (unencodable_analysis_stored_empty Strconv.ParseFloat
               Strconv.FormatFloat Json.Marshal 0 Scenario.hugeAgain
               Scenario.afterHuge Example.get _ _ _))));
    vm_compute; reflexivity.
Defined.

Lemma ingest_process_analyze_witness :
  let w := Example.fresh in
  let t1 := (Example.now + 3)%Z in
  let t2 := (Example.now + 60)%Z in
  let a := analyseWindow Strconv.ParseFloat ["120"]
             (stamp (unixNow w) Scenario.decoded) t1 in
  let b := jsonBytes Json.Marshal a in
  let w2 := worker Strconv.ParseFloat Strconv.FormatFloat Json.Marshal 0 1
              (elapse t1 (snd (handleIngest (Example.post 12 120) w))) in
  Decode (Body (Example.post 12 120)) zeroMetric = inl Scenario.decoded
  /\ Json.Marshal a = Some b
  /\ fst (handleAnalyze Example.get (elapse t2 w2))
     = {| StatusCode := 200;
          Header := [("Content-Type", "application/json")];
          Written := b |}
  /\ carries b "lastTimestamp" (Json.encodeInt Example.now)
  /\ carries b "computedAt" (Json.encodeInt (Example.now + 3)).
Proof.
  intros w t1 t2 a b w2.
  assert (E : Json.Marshal a = Some b) by (vm_compute; reflexivity).
  split; [reflexivity|]. split; [exact E|].
  pose proof (ingest_process_analyze Strconv.ParseFloat Strconv.FormatFloat
                0 (Example.post 12 120) Example.get Scenario.decoded w t1 t2
                b eq_refl eq_refl eq_refl eq_refl eq_refl eq_refl E) as H.
  cbv zeta in H. destruct H as (_ & _ & H3 & _ & _ & H6 & H7).
  split; [exact H3|]. split; [exact H6|exact H7].
Defined.

Lemma interleaved_workers_share_a_window_witness :
  network Scenario.twoQueued = []
  /\ chan_buf (metricsCh Scenario.twoQueued)
     = [Example.sample; Scenario.second]
  /\ let '(_, w', took) :=
       runPool Strconv.ParseFloat Strconv.FormatFloat Json.Marshal
         [Run 0; Run 1; Run 0; Run 1; Run 0; Run 1;
          Tick (Example.now + 1); Run 0; Tick (Example.now + 2);
          Run 1; Run 1; Run 0]
         (StartWorkers 2) Scenario.twoQueued in
     took = [(0%nat, Example.sample); (1%nat, Scenario.second)]
     /\ rps_window (rdb w') = ["130"; "120"]
     /\ last_analysis (rdb w')
        = Json.Marshal {| Count := 2; WindowSize := 50; RollingAvg := 125;
                          StdDev := 5; ZScore := -1; IsAnomaly := false;
                          LastRPS := 120; LastCPU := 12;
                          LastTs := Example.now; ThresholdZ := 2;
                          ComputedAt := Example.now + 1 |}.
Proof.
  split; [reflexivity|]. split; [reflexivity|].
  pose proof (interleaved_workers_share_a_window Strconv.ParseFloat
                Strconv.FormatFloat Json.Marshal Example.sample
                Scenario.second [] Scenario.twoQueued
                (Example.now + 1) (Example.now + 2) eq_refl eq_refl) as H.
  cbv zeta in H.
  destruct (runPool _ _ _ _ _ _) as [[pcs' w'] took].
  destruct H as (H1 & _ & H3 & _ & _ & _ & H7 & _).
  split; [exact H1|]. split; [rewrite H3; vm_compute; reflexivity|].
  rewrite (H7 (jsonBytes Json.Marshal
                 (analyseWindow Strconv.ParseFloat ["130"; "120"]
                    Example.sample (Example.now + 1))))
    by (vm_compute; reflexivity).
  vm_compute. reflexivity.
Defined.
